(** * Table comparator: the comparison status functions

    A shallow embedding of the three status functions of the front-end
    script ([getSamplingMethodText], [getDetailedStatusMessage] and
    [getComparisonStatusClass]) together with the small part of the
    JavaScript semantics they rely on: truthiness, [||], string conversion
    inside template literals, property lookup through the prototype chain
    of an object literal, and arrays that are allocated, pushed to, mapped
    and joined.

    The other functions of the script follow: the loading states of an
    element ([showModernLoading], [hideModernLoading]), the status messages
    and their timeouts ([showStatusMessage], [copyToClipboard]), the
    configuration templates kept in [localStorage] ([saveAsTemplate],
    [loadTemplate]) and the staggered animation of the cards
    ([initPageAnimations]), each over the part of the page it reads and
    writes. *)

From Stdlib Require Import ZArith List String Ascii Bool Lia DecimalString.
Import ListNotations.
Local Open Scope string_scope.

(** ** Text *)

Module Text.

(** The double quote and the line feed, which the markup is full of. *)
Definition dq : string := String (ascii_of_nat 34) EmptyString.
Definition nl : string := String (ascii_of_nat 10) EmptyString.

(** [sp n] is the indentation of a template line: [n] spaces. *)
Fixpoint sp (n : nat) : string :=
  match n with
  | O => EmptyString
  | S k => String " "%char (sp k)
  end.

(** One line of a template literal, indented by [n] and ended by a line feed. *)
Definition line (n : nat) (s : string) : string := sp n ++ s ++ nl.

(** [attr "class" v] is [class="v"]. *)
Definition attr (name v : string) : string := name ++ "=" ++ dq ++ v ++ dq.

(** A template literal is the concatenation of its fragments. *)
Definition template (parts : list string) : string :=
  String.concat EmptyString parts.

(** [contains needle hay]: [needle] occurs in [hay]. *)
Definition contains (needle hay : string) : Prop :=
  exists before after, hay = before ++ needle ++ after.

(** The same as a test, for closed strings. *)
Fixpoint occurs (needle hay : string) : bool :=
  String.prefix needle hay ||
  match hay with
  | EmptyString => false
  | String _ rest => occurs needle rest
  end.

End Text.

(** ** JavaScript values *)

Module Js.

(** The values that reach the status functions: what a JSON scalar can be,
    [undefined] for an absent field, and the two kinds of object that a
    lookup on an object literal can bring back from [Object.prototype].
    Numbers are the integers, on which [Number] arithmetic and comparison
    are exact (below 2^53) and whose string form is the decimal one. *)
Inductive value : Type :=
| VUndefined
| VNull
| VBool (b : bool)
| VNum (n : Z)
| VStr (s : string)
| VFunction (name : string)
| VObjectPrototype.

(** What the browser decides: the locale of [Number.prototype.toLocaleString]
    and the source text that a built-in function converts to. *)
Class Host : Type := {
  toLocaleString : Z -> string;
  native_source : string -> string
}.

(** ToString of an integer Number. *)
Definition number_to_string (n : Z) : string :=
  NilZero.string_of_int (Z.to_int n).

(** ToBoolean. *)
Definition truthy (v : value) : bool :=
  match v with
  | VUndefined | VNull => false
  | VBool b => b
  | VNum n => negb (n =? 0)%Z
  | VStr s => negb (String.eqb s EmptyString)
  | VFunction _ | VObjectPrototype => true
  end.

(** [a || b]. *)
Definition or_else (a b : value) : value := if truthy a then a else b.

(** ToString, as a template literal and a property access apply it. *)
Definition to_string {host : Host} (v : value) : string :=
  match v with
  | VUndefined => "undefined"
  | VNull => "null"
  | VBool true => "true"
  | VBool false => "false"
  | VNum n => number_to_string n
  | VStr s => s
  | VFunction name => native_source name
  | VObjectPrototype => "[object Object]"
  end.

(** The function-valued properties of [Object.prototype] in a browser. *)
Definition object_prototype_methods : list string :=
  [ "__defineGetter__"; "__defineSetter__"; "hasOwnProperty";
    "__lookupGetter__"; "__lookupSetter__"; "isPrototypeOf";
    "propertyIsEnumerable"; "toString"; "valueOf"; "toLocaleString" ].

(** [o[key]] for a key that [o], an object literal, does not own: the lookup
    goes on in [Object.prototype]. [constructor] is the function [Object], the
    [__proto__] getter answers the prototype of the receiver, which is
    [Object.prototype] itself, and the end of the chain gives [undefined]. *)
Definition object_prototype_get (key : string) : value :=
  if String.eqb key "constructor" then VFunction "Object"
  else if String.eqb key "__proto__" then VObjectPrototype
  else if existsb (String.eqb key) object_prototype_methods then VFunction key
  else VUndefined.

(** The own properties of an object literal, in the order written. *)
Definition object_literal : Type := list (string * value).

Fixpoint own_property (o : object_literal) (key : string) : option value :=
  match o with
  | [] => None
  | (k, v) :: rest => if String.eqb k key then Some v else own_property rest key
  end.

(** [o[key]]: the key is converted to a string, own properties come first. *)
Definition get_property {host : Host} (o : object_literal) (key : value) : value :=
  let k := to_string key in
  match own_property o k with
  | Some v => v
  | None => object_prototype_get k
  end.

(** [Array.prototype.join] on strings. *)
Definition join (sep : string) (l : list string) : string := String.concat sep l.

End Js.

(** ** A browser to run the examples in: en-US digits grouping, V8 text *)

Module Browser.

(** Walks the digits from the least significant one, [k] counting those
    already written in the current group. *)
Fixpoint group_rev (ds : list ascii) (k : nat) : list ascii :=
  match ds with
  | [] => []
  | c :: rest =>
      if Nat.eqb k 3 then ","%char :: c :: group_rev rest 1
      else c :: group_rev rest (S k)
  end.

Definition en_US (n : Z) : string :=
  let digits := list_ascii_of_string (Js.number_to_string (Z.abs n)) in
  (if (n <? 0)%Z then "-" else EmptyString)
  ++ string_of_list_ascii (rev (group_rev (rev digits) 0)).

Definition v8_source (name : string) : string :=
  "function " ++ name ++ "() { [native code] }".

Definition en_US_host : Js.Host :=
  {| Js.toLocaleString := en_US; Js.native_source := v8_source |}.

End Browser.

(** ** The data handed to the status functions *)

Module Comparator.
Import Text Js.

(** A field that holds an array when it is there; [Undefined] is the field
    left out of the object and [Null] the JSON [null]. *)
Inductive maybe_array (A : Type) : Type :=
| Undefined
| Null
| Array (items : list A).
Arguments Undefined {A}.
Arguments Null {A}.
Arguments Array {A} items.

(** One schema difference: a record the status functions never look into. *)
Definition SchemaDifference : Type := object_literal.

Record Summary : Type := {
  total_differing : Z;
  total_missing_dev : Z;
  total_missing_prod : Z
}.

Record ComparisonResult : Type := {
  tables_identical : bool;
  dev_row_count : Z;
  prod_row_count : Z;
  schema_differences : maybe_array SchemaDifference;
  summary : Summary;
  was_limited : bool;
  sampling_method : value;
  max_rows_setting : Z
}.

(** The object literal pushed for each check. *)
Record Issue : Type := {
  icon : string;
  text : string;
  type : string
}.

(** ** Arrays

    [let issues = []] and [let dataIssues = []] make new arrays that the
    function then grows with [push]; [map] makes a third one. The heap
    holds all of them, an array being named by its position. *)

Inductive elem : Type :=
| EStr (s : string)
| EIssue (i : Issue).

Definition heap : Type := list (list elem).

Definition M (A : Type) : Type := heap -> A * heap.

Definition ret {A : Type} (a : A) : M A := fun h => (a, h).

Definition bind {A B : Type} (c : M A) (k : A -> M B) : M B :=
  fun h => let (a, h') := c h in k a h'.

Notation "x <- c ;; k" := (bind c (fun x => k))
  (at level 61, c at next level, right associativity).
Notation "c ;; k" := (bind c (fun _ => k))
  (at level 61, right associativity).

Fixpoint update (r : nat) (f : list elem -> list elem) (h : heap) : heap :=
  match h, r with
  | [], _ => []
  | a :: rest, O => f a :: rest
  | a :: rest, S r' => a :: update r' f rest
  end.

(** [[]] *)
Definition new_array : M nat := fun h => (List.length h, (h ++ [[]])%list).

(** [a.push(e)] *)
Definition push (a : nat) (e : elem) : M unit :=
  fun h => (tt, update a (fun items => (items ++ [e])%list) h).

(** The elements of [a] as they are now. *)
Definition read (a : nat) : M (list elem) := fun h => (nth a h [], h).

(** [a.map(f)], for an [f] that builds a string: a new array. *)
Definition map_array (a : nat) (f : elem -> string) : M nat :=
  items <- read a ;;
  fun h => (List.length h, (h ++ [map (fun e => EStr (f e)) items])%list).

(** ToString of an element, as [join] applies it. *)
Definition elem_to_string (e : elem) : string :=
  match e with
  | EStr s => s
  | EIssue _ => "[object Object]"
  end.

(** [a.join(sep)] *)
Definition join_array (a : nat) (sep : string) : M string :=
  items <- read a ;;
  ret (join sep (map elem_to_string items)).

(** [e.icon], [e.text], [e.type]: a string has none of them. *)
Definition field (name : Issue -> string) (e : elem) : value :=
  match e with
  | EIssue i => VStr (name i)
  | EStr _ => VUndefined
  end.

Section Interpreter.
Context {host : Host}.

Definition getSamplingMethodText (method : value) : value :=
  let methods : object_literal :=
    [ ("LAST_N", VStr "most recent");
      ("RANDOM", VStr "random sample of");
      ("TOP_N", VStr "first") ] in
  or_else (get_property methods method) (VStr "first").

(** The template of the identical case, [rows] being
    [data.dev_row_count.toLocaleString()]. *)
Definition perfect_match (rows : string) : string :=
  template
    [ nl;
      line 12 ("<div " ++ attr "class" "d-flex align-items-center mb-3" ++ ">");
      line 16 ("<i " ++ attr "class" "fas fa-check-circle text-success me-2 fs-4" ++ "></i>");
      line 16 ("<h6 " ++ attr "class" "mb-0 text-success" ++ ">Perfect Match! 🎉</h6>");
      line 12 "</div>";
      line 12 ("<div " ++ attr "class" "row g-3 text-sm" ++ ">");
      line 16 ("<div " ++ attr "class" "col-md-3" ++ ">");
      line 20 ("<div " ++ attr "class" "d-flex align-items-center" ++ ">");
      line 24 ("<i " ++ attr "class" "fas fa-database me-2 text-success" ++ "></i>");
      line 24 "<span>Schema Match</span>";
      line 20 "</div>";
      line 16 "</div>";
      line 16 ("<div " ++ attr "class" "col-md-3" ++ ">");
      line 20 ("<div " ++ attr "class" "d-flex align-items-center" ++ ">");
      line 24 ("<i " ++ attr "class" "fas fa-list-ol me-2 text-success" ++ "></i>");
      sp 24 ++ "<span>"; rows; " Rows</span>" ++ nl;
      line 20 "</div>";
      line 16 "</div>";
      line 16 ("<div " ++ attr "class" "col-md-3" ++ ">");
      line 20 ("<div " ++ attr "class" "d-flex align-items-center" ++ ">");
      line 24 ("<i " ++ attr "class" "fas fa-equals me-2 text-success" ++ "></i>");
      line 24 "<span>Data Identical</span>";
      line 20 "</div>";
      line 16 "</div>";
      line 16 ("<div " ++ attr "class" "col-md-3" ++ ">");
      line 20 ("<div " ++ attr "class" "d-flex align-items-center" ++ ">");
      line 24 ("<i " ++ attr "class" "fas fa-chart-line me-2 text-success" ++ "></i>");
      line 24 "<span>Complete Analysis</span>";
      line 20 "</div>";
      line 16 "</div>";
      line 12 "</div>";
      sp 8 ].

(** The arrow function given to [issues.map]. *)
Definition render_issue (issue : elem) : string :=
  template
    [ "<div " ++ attr "class" "d-flex align-items-center mb-2" ++ ">" ++ nl;
      sp 16 ++ "<i " ++ "class=" ++ dq ++ "fas ";
      to_string (field icon issue); " me-2 text-"; to_string (field type issue);
      dq ++ "></i>" ++ nl;
      sp 16 ++ "<span " ++ "class=" ++ dq ++ "text-"; to_string (field type issue);
      dq ++ ">"; to_string (field text issue); "</span>" ++ nl;
      sp 12 ++ "</div>" ].

(** The template of the other case around [issuesList]. *)
Definition analysis_results (issuesList : string) : string :=
  template
    [ nl;
      line 12 ("<div " ++ attr "class" "mb-3" ++ ">");
      line 16 ("<h6 " ++ attr "class" "text-muted mb-3" ++ ">");
      line 20 ("<i " ++ attr "class" "fas fa-clipboard-check me-2" ++ "></i>");
      line 20 "Analysis Results";
      line 16 "</h6>";
      sp 16; issuesList; nl;
      line 12 "</div>";
      sp 8 ].

(** The four checks of the non-identical case, each pushing one object
    onto [issues]. *)

(** [// Schema check]: [data.schema_differences && ...length > 0] stops at a
    field that is [undefined] or [null] and never asks it for a length. *)
Definition schema_check (issues : nat) (data : ComparisonResult) : M unit :=
  match schema_differences data with
  | Array diffs =>
      if (Z.of_nat (List.length diffs) >? 0)%Z then
        push issues (EIssue
          {| icon := "fa-exclamation-triangle";
             text := "Schema differences ("
                     ++ number_to_string (Z.of_nat (List.length diffs)) ++ ")";
             type := "danger" |})
      else
        push issues (EIssue
          {| icon := "fa-check"; text := "Schema identical"; type := "success" |})
  | Undefined | Null =>
      push issues (EIssue
        {| icon := "fa-check"; text := "Schema identical"; type := "success" |})
  end.

(** [// Row count check] *)
Definition row_count_check (issues : nat) (data : ComparisonResult) : M unit :=
  if negb (dev_row_count data =? prod_row_count data)%Z then
    push issues (EIssue
      {| icon := "fa-exclamation-triangle";
         text := "Row count mismatch: DEV("
                 ++ toLocaleString (dev_row_count data) ++ ") vs PROD("
                 ++ toLocaleString (prod_row_count data) ++ ")";
         type := "danger" |})
  else
    push issues (EIssue
      {| icon := "fa-check";
         text := "Row counts match ("
                 ++ toLocaleString (dev_row_count data) ++ ")";
         type := "success" |}).

(** [// Data differences check] *)
Definition data_differences_check (issues : nat) (data : ComparisonResult) : M unit :=
  if (total_differing (summary data) >? 0)%Z
     || (total_missing_dev (summary data) >? 0)%Z
     || (total_missing_prod (summary data) >? 0)%Z
  then
    dataIssues <- new_array ;;
    (if (total_differing (summary data) >? 0)%Z then
       push dataIssues (EStr
         (number_to_string (total_differing (summary data)) ++ " differing"))
     else ret tt) ;;
    (if (total_missing_dev (summary data) >? 0)%Z then
       push dataIssues (EStr
         (number_to_string (total_missing_dev (summary data))
          ++ " missing from DEV"))
     else ret tt) ;;
    (if (total_missing_prod (summary data) >? 0)%Z then
       push dataIssues (EStr
         (number_to_string (total_missing_prod (summary data))
          ++ " missing from PROD"))
     else ret tt) ;;
    joined <- join_array dataIssues ", " ;;
    push issues (EIssue
      {| icon := "fa-exclamation-triangle";
         text := "Data differences: " ++ joined;
         type := "danger" |})
  else
    push issues (EIssue
      {| icon := "fa-check";
         text := "Compared data identical";
         type := "success" |}).

(** [// Coverage check] *)
Definition coverage_check (issues : nat) (data : ComparisonResult) : M unit :=
  if was_limited data then
    push issues (EIssue
      {| icon := "fa-info-circle";
         text := "Limited analysis: "
                 ++ to_string (getSamplingMethodText (sampling_method data))
                 ++ " " ++ toLocaleString (max_rows_setting data) ++ " rows";
         type := "warning" |})
  else
    push issues (EIssue
      {| icon := "fa-check";
         text := "Complete table analysis";
         type := "success" |}).

Definition getDetailedStatusMessage (data : ComparisonResult) : M string :=
  if tables_identical data then
    ret (perfect_match (toLocaleString (dev_row_count data)))
  else
    issues <- new_array ;;
    schema_check issues data ;;
    row_count_check issues data ;;
    data_differences_check issues data ;;
    coverage_check issues data ;;
    rendered <- map_array issues render_issue ;;
    issuesList <- join_array rendered EmptyString ;;
    ret (analysis_results issuesList).

Definition getComparisonStatusClass (data : ComparisonResult) : string :=
  if tables_identical data then "card-header bg-success text-white"
  else "card-header bg-warning text-dark".

(** What a caller sees of one call started on heap [h]: the markup returned,
    and the array [issues], which is the first one the call allocates. *)
Definition message_of (data : ComparisonResult) (h : heap) : string :=
  fst (getDetailedStatusMessage data h).

Definition issues_of (data : ComparisonResult) (h : heap) : list elem :=
  nth (List.length h) (snd (getDetailedStatusMessage data h)) [].

(** The strings pushed onto [dataIssues], in the order of the three tests. *)
Definition data_issues (s : Summary) : list string :=
  List.app
    (if (total_differing s >? 0)%Z
     then [number_to_string (total_differing s) ++ " differing"] else [])
    (List.app
       (if (total_missing_dev s >? 0)%Z
        then [number_to_string (total_missing_dev s) ++ " missing from DEV"] else [])
       (if (total_missing_prod s >? 0)%Z
        then [number_to_string (total_missing_prod s) ++ " missing from PROD"] else [])).

(** The object each check pushes, as a function of the data alone. *)
Definition schema_entry (data : ComparisonResult) : Issue :=
  match schema_differences data with
  | Array diffs =>
      if (Z.of_nat (List.length diffs) >? 0)%Z then
        {| icon := "fa-exclamation-triangle";
           text := "Schema differences ("
                   ++ number_to_string (Z.of_nat (List.length diffs)) ++ ")";
           type := "danger" |}
      else {| icon := "fa-check"; text := "Schema identical"; type := "success" |}
  | Undefined | Null =>
      {| icon := "fa-check"; text := "Schema identical"; type := "success" |}
  end.

Definition row_count_entry (data : ComparisonResult) : Issue :=
  if negb (dev_row_count data =? prod_row_count data)%Z then
    {| icon := "fa-exclamation-triangle";
       text := "Row count mismatch: DEV("
               ++ toLocaleString (dev_row_count data) ++ ") vs PROD("
               ++ toLocaleString (prod_row_count data) ++ ")";
       type := "danger" |}
  else
    {| icon := "fa-check";
       text := "Row counts match (" ++ toLocaleString (dev_row_count data) ++ ")";
       type := "success" |}.

Definition any_data_difference (s : Summary) : bool :=
  (total_differing s >? 0)%Z
  || (total_missing_dev s >? 0)%Z
  || (total_missing_prod s >? 0)%Z.

Definition data_entry (data : ComparisonResult) : Issue :=
  if any_data_difference (summary data) then
    {| icon := "fa-exclamation-triangle";
       text := "Data differences: " ++ join ", " (data_issues (summary data));
       type := "danger" |}
  else
    {| icon := "fa-check"; text := "Compared data identical"; type := "success" |}.

Definition coverage_entry (data : ComparisonResult) : Issue :=
  if was_limited data then
    {| icon := "fa-info-circle";
       text := "Limited analysis: "
               ++ to_string (getSamplingMethodText (sampling_method data))
               ++ " " ++ toLocaleString (max_rows_setting data) ++ " rows";
       type := "warning" |}
  else
    {| icon := "fa-check"; text := "Complete table analysis"; type := "success" |}.

Definition entries (data : ComparisonResult) : list elem :=
  [ EIssue (schema_entry data); EIssue (row_count_entry data);
    EIssue (data_entry data); EIssue (coverage_entry data) ].

(** The arrays a call leaves behind: [issues], then [dataIssues] when the
    data check made one, then the array [map] returned. *)
Definition arrays_left (data : ComparisonResult) : heap :=
  List.app [entries data]
    (List.app
       (if any_data_difference (summary data)
        then [map EStr (data_issues (summary data))] else [])
       [map (fun e => EStr (render_issue e)) (entries data)]).

End Interpreter.

(** [{...data, schema_differences: v}] *)
Definition with_schema_differences
    (data : ComparisonResult) (v : maybe_array SchemaDifference) : ComparisonResult :=
  {| tables_identical := tables_identical data;
     dev_row_count := dev_row_count data;
     prod_row_count := prod_row_count data;
     schema_differences := v;
     summary := summary data;
     was_limited := was_limited data;
     sampling_method := sampling_method data;
     max_rows_setting := max_rows_setting data |}.

(** The categories of the data entry as the specification words them: the
    count and the label of each of the three categories, in the fixed order,
    those of count zero left out. *)
Definition nonzero_categories (s : Summary) : list string :=
  map (fun c => number_to_string (fst c) ++ " " ++ snd c)
    (filter (fun c => negb (fst c =? 0)%Z)
       [ (total_differing s, "differing");
         (total_missing_dev s, "missing from DEV");
         (total_missing_prod s, "missing from PROD") ]).

End Comparator.

(** ** Sample results *)

Module Samples.
Import Js Comparator.

(** Two tables of a thousand rows that agree. *)
Definition agreeing : ComparisonResult :=
  {| tables_identical := true;
     dev_row_count := 1000; prod_row_count := 1000;
     schema_differences := Array [];
     summary := {| total_differing := 0; total_missing_dev := 0;
                   total_missing_prod := 0 |};
     was_limited := false; sampling_method := VNull; max_rows_setting := 10000 |}.

(** Two columns drifted, nothing else; the whole tables were read. *)
Definition schema_drift : ComparisonResult :=
  {| tables_identical := false;
     dev_row_count := 1000; prod_row_count := 1000;
     schema_differences :=
       Array [ [("column", VStr "price"); ("issue", VStr "type_mismatch")];
               [("column", VStr "sku"); ("issue", VStr "missing_in_prod")] ];
     summary := {| total_differing := 0; total_missing_dev := 0;
                   total_missing_prod := 0 |};
     was_limited := false; sampling_method := VNull; max_rows_setting := 10000 |}.

(** Everything differs, on a random sample of five thousand rows. *)
Definition all_wrong : ComparisonResult :=
  {| tables_identical := false;
     dev_row_count := 4998; prod_row_count := 5000;
     schema_differences := Array [ [("column", VStr "price")] ];
     summary := {| total_differing := 5; total_missing_dev := 0;
                   total_missing_prod := 2 |};
     was_limited := true; sampling_method := VStr "RANDOM";
     max_rows_setting := 5000 |}.

(** The producer left [schema_differences] out. *)
Definition no_schema_field : ComparisonResult :=
  with_schema_differences all_wrong Undefined.

End Samples.

(** ** Loading states *)

Module Loading.
Import Text Js.

(** The button or panel handed to the loading functions, as far as they
    read or write it. [innerHTML] is the markup as it was read or last
    assigned, [dataset_originalContent] the entry [originalContent] of the
    element's [dataset], which is there or not. *)
Record Element : Type := {
  innerHTML : string;
  dataset_originalContent : option string;
  disabled : bool;
  style_transition : string;
  style_transform : string;
  style_boxShadow : string
}.

Definition set_innerHTML (v : string) (el : Element) : Element :=
  {| innerHTML := v;
     dataset_originalContent := dataset_originalContent el;
     disabled := disabled el;
     style_transition := style_transition el;
     style_transform := style_transform el;
     style_boxShadow := style_boxShadow el |}.

Definition set_originalContent (v : option string) (el : Element) : Element :=
  {| innerHTML := innerHTML el;
     dataset_originalContent := v;
     disabled := disabled el;
     style_transition := style_transition el;
     style_transform := style_transform el;
     style_boxShadow := style_boxShadow el |}.

Definition set_disabled (v : bool) (el : Element) : Element :=
  {| innerHTML := innerHTML el;
     dataset_originalContent := dataset_originalContent el;
     disabled := v;
     style_transition := style_transition el;
     style_transform := style_transform el;
     style_boxShadow := style_boxShadow el |}.

Definition set_transition (v : string) (el : Element) : Element :=
  {| innerHTML := innerHTML el;
     dataset_originalContent := dataset_originalContent el;
     disabled := disabled el;
     style_transition := v;
     style_transform := style_transform el;
     style_boxShadow := style_boxShadow el |}.

Definition set_transform (v : string) (el : Element) : Element :=
  {| innerHTML := innerHTML el;
     dataset_originalContent := dataset_originalContent el;
     disabled := disabled el;
     style_transition := style_transition el;
     style_transform := v;
     style_boxShadow := style_boxShadow el |}.

Definition set_boxShadow (v : string) (el : Element) : Element :=
  {| innerHTML := innerHTML el;
     dataset_originalContent := dataset_originalContent el;
     disabled := disabled el;
     style_transition := style_transition el;
     style_transform := style_transform el;
     style_boxShadow := v |}.

(** [element.dataset.originalContent], [undefined] when the entry is not there. *)
Definition get_originalContent (el : Element) : value :=
  match dataset_originalContent el with
  | Some s => VStr s
  | None => VUndefined
  end.

(** A parameter with a default value: the default stands in for a missing
    argument, which is [undefined], and for nothing else. *)
Definition default_to (d v : value) : value :=
  match v with
  | VUndefined => d
  | _ => v
  end.

(** [v === 'literal'] *)
Definition is_string (v : value) (literal : string) : bool :=
  match v with
  | VStr s => String.eqb s literal
  | _ => false
  end.

Section Functions.
Context {host : Host}.

(** The markup put in place of the content while loading. *)
Definition loading_markup (icon text : value) : string :=
  template
    [ "<i class=" ++ dq ++ "fas "; to_string icon; " fa-spin me-2" ++ dq ++ "></i>";
      to_string text ].

(** The element as the call leaves it; [None] is a call without element. *)
Definition showModernLoading
    (element : option Element) (text icon : value) : option Element :=
  let text := default_to (VStr "Processing...") text in
  let icon := default_to (VStr "fa-spinner") icon in
  match element with
  | Some el =>
      let originalContent := innerHTML el in
      let el := set_originalContent (Some originalContent) el in
      let el := set_innerHTML (loading_markup icon text) el in
      let el := set_disabled true el in
      let el := set_transition "all 0.3s ease" el in
      let el := set_transform "scale(0.98)" el in
      (* Add loading glow effect *)
      let el :=
        if is_string icon "fa-spinner"
        then set_boxShadow "0 0 20px rgba(102, 126, 234, 0.4)" el
        else el in
      Some el
  | None => None
  end.

Definition hideModernLoading (element : option Element) : option Element :=
  match element with
  | Some el =>
      if truthy (get_originalContent el) then
        let el := set_innerHTML (to_string (get_originalContent el)) el in
        let el := set_disabled false el in
        let el := set_transform "scale(1)" el in
        let el := set_boxShadow EmptyString el in
        let el := set_originalContent None el in
        Some el
      else Some el
  | None => None
  end.

End Functions.

End Loading.

Module MoreSamples.
Import Js Comparator.

(** Flagged identical by the producer although nothing else agrees. *)
Definition flagged_identical : ComparisonResult :=
  {| tables_identical := true;
     dev_row_count := 1000; prod_row_count := 7;
     schema_differences := Array [ [("column", VStr "price")] ];
     summary := {| total_differing := 12; total_missing_dev := 3;
                   total_missing_prod := 0 |};
     was_limited := true; sampling_method := VStr "LAST_N";
     max_rows_setting := 50 |}.

(** Counts below zero, as a producer that subtracts might send. *)
Definition negative_counts : ComparisonResult :=
  {| tables_identical := false;
     dev_row_count := 10; prod_row_count := 10;
     schema_differences := Array [];
     summary := {| total_differing := -3; total_missing_dev := 0;
                   total_missing_prod := -1 |};
     was_limited := false; sampling_method := VNull; max_rows_setting := 0 |}.

(** A button with its label, and a panel still empty. *)
Definition compare_button : Loading.Element :=
  {| Loading.innerHTML := "Compare tables";
     Loading.dataset_originalContent := None;
     Loading.disabled := false;
     Loading.style_transition := EmptyString;
     Loading.style_transform := EmptyString;
     Loading.style_boxShadow := "0 1px 2px gray" |}.

Definition empty_panel : Loading.Element :=
  {| Loading.innerHTML := EmptyString;
     Loading.dataset_originalContent := None;
     Loading.disabled := false;
     Loading.style_transition := EmptyString;
     Loading.style_transform := EmptyString;
     Loading.style_boxShadow := EmptyString |}.

End MoreSamples.

(** ** Status messages on the page *)

Module Alerts.
Import Text Js.

(** An element of class [alert]: the markup it was made from and the two
    styles the dismissal writes. Elements are told apart by [alert_id]. *)
Record AlertElement : Type := {
  alert_id : nat;
  markup : string;
  style_opacity : string;
  style_transform : string
}.

(** What a timeout runs: [Dismiss] is the arrow function given to the outer
    [setTimeout], [Remove id] the inner one, which holds on to the element
    it found. *)
Inductive Task : Type :=
| Dismiss
| Remove (id : nat).

(** The page as the status messages see it. [main_alerts] is [None] when
    no element has the class [container-fluid]; otherwise it lists, in
    document order, the elements of class [alert] inside the first one.
    [timers] are the pending timeouts with the time they are due at, in the
    order they were set; [now] is the clock, in milliseconds. A message is
    taken to bring one element of class [alert], the one of the template. *)
Record Page : Type := {
  main_alerts : option (list AlertElement);
  timers : list (Z * Task);
  now : Z;
  next_id : nat
}.

Definition set_main_alerts (v : option (list AlertElement)) (w : Page) : Page :=
  {| main_alerts := v; timers := timers w; now := now w; next_id := next_id w |}.

Definition set_timers (v : list (Z * Task)) (w : Page) : Page :=
  {| main_alerts := main_alerts w; timers := v; now := now w;
     next_id := next_id w |}.

Definition set_now (v : Z) (w : Page) : Page :=
  {| main_alerts := main_alerts w; timers := timers w; now := v;
     next_id := next_id w |}.

(** [setTimeout(task, delay)] *)
Definition setTimeout (task : Task) (delay : Z) (w : Page) : Page :=
  set_timers (timers w ++ [((now w + delay)%Z, task)])%list w.

(** [mainContent.insertAdjacentHTML('afterbegin', html)]: the new element
    comes before everything the container held. *)
Definition insert_afterbegin (html : string) (w : Page) : Page :=
  match main_alerts w with
  | Some alerts =>
      {| main_alerts :=
           Some ({| alert_id := next_id w; markup := html;
                    style_opacity := EmptyString;
                    style_transform := EmptyString |} :: alerts);
         timers := timers w; now := now w; next_id := S (next_id w) |}
  | None => w
  end.

Section Functions.
Context {host : Host}.

Definition showStatusMessage
    (message type : value) (duration : option Z) (w : Page) : Page :=
  let type := Loading.default_to (VStr "info") type in
  let duration := match duration with Some d => d | None => 5000%Z end in
  let alertClass :=
    if Loading.is_string type "error" then "alert-danger"
    else template ["alert-"; to_string type] in
  let icon :=
    if Loading.is_string type "error" then "fa-exclamation-triangle"
    else if Loading.is_string type "success" then "fa-check-circle"
    else if Loading.is_string type "warning" then "fa-exclamation-triangle"
    else "fa-info-circle" in
  let alertHTML :=
    template
      [ nl;
        sp 8 ++ "<div class=" ++ dq ++ "alert "; alertClass;
        " alert-dismissible fade show slide-up" ++ dq ++ " "
          ++ attr "role" "alert" ++ ">" ++ nl;
        sp 12 ++ "<i class=" ++ dq ++ "fas "; icon; " me-2" ++ dq ++ "></i>" ++ nl;
        sp 12; to_string message; nl;
        line 12 ("<button " ++ attr "type" "button" ++ " "
                 ++ attr "class" "btn-close" ++ " "
                 ++ attr "data-bs-dismiss" "alert" ++ "></button>");
        line 8 "</div>";
        sp 4 ] in
  (* Insert at the top of main content *)
  match main_alerts w with
  | Some _ =>
      let w := insert_afterbegin alertHTML w in
      (* Auto-dismiss after duration *)
      if (duration >? 0)%Z then setTimeout Dismiss duration w else w
  | None => w
  end.

(** [navigator.clipboard.writeText(text)] settles one way or the other:
    [written] says which, and the page is the one of that moment. *)
Definition copyToClipboard
    (text successMessage : value) (written : bool) (w : Page) : Page :=
  let successMessage :=
    Loading.default_to (VStr "Copied to clipboard!") successMessage in
  if written then
    showStatusMessage successMessage (VStr "success") (Some 3000%Z) w
  else
    showStatusMessage (VStr "Failed to copy to clipboard") (VStr "error")
      (Some 3000%Z) w.

(** The class, the icon and the markup of a message, by themselves. *)
Definition alert_class (type : value) : string :=
  if Loading.is_string type "error" then "alert-danger"
  else template ["alert-"; to_string type].

Definition alert_icon (type : value) : string :=
  if Loading.is_string type "error" then "fa-exclamation-triangle"
  else if Loading.is_string type "success" then "fa-check-circle"
  else if Loading.is_string type "warning" then "fa-exclamation-triangle"
  else "fa-info-circle".

Definition alert_html (message type : value) : string :=
  template
    [ nl;
      sp 8 ++ "<div class=" ++ dq ++ "alert "; alert_class type;
      " alert-dismissible fade show slide-up" ++ dq ++ " "
        ++ attr "role" "alert" ++ ">" ++ nl;
      sp 12 ++ "<i class=" ++ dq ++ "fas "; alert_icon type;
      " me-2" ++ dq ++ "></i>" ++ nl;
      sp 12; to_string message; nl;
      line 12 ("<button " ++ attr "type" "button" ++ " "
               ++ attr "class" "btn-close" ++ " "
               ++ attr "data-bs-dismiss" "alert" ++ "></button>");
      line 8 "</div>";
      sp 4 ].

(** The element a message makes, as it is when it comes into the page. *)
Definition new_alert (message type : value) (id : nat) : AlertElement :=
  {| alert_id := id;
     markup := alert_html message (Loading.default_to (VStr "info") type);
     style_opacity := EmptyString;
     style_transform := EmptyString |}.

(** The same element once the dismissal has faded it. *)
Definition faded_alert (message type : value) (id : nat) : AlertElement :=
  {| alert_id := id;
     markup := alert_html message (Loading.default_to (VStr "info") type);
     style_opacity := "0";
     style_transform := "translateY(-20px)" |}.

End Functions.

(** *** Timeouts coming due *)

(** What the two arrow functions do when their time has come. *)
Definition run_task (task : Task) (w : Page) : Page :=
  match task with
  | Dismiss =>
      match main_alerts w with
      | Some (alert :: rest) =>
          let faded :=
            {| alert_id := alert_id alert; markup := markup alert;
               style_opacity := "0";
               style_transform := "translateY(-20px)" |} in
          setTimeout (Remove (alert_id alert)) 300
            (set_main_alerts (Some (faded :: rest)) w)
      | _ => w
      end
  | Remove id =>
      match main_alerts w with
      | Some alerts =>
          set_main_alerts
            (Some (filter (fun a => negb (Nat.eqb (alert_id a) id)) alerts)) w
      | None => w
      end
  end.

(** The timeout due first, the one set first among those due together, and
    the others in the order they were set. *)
Fixpoint pick {T : Type} (ts : list (Z * T)) : option ((Z * T) * list (Z * T)) :=
  match ts with
  | [] => None
  | t :: rest =>
      match pick rest with
      | None => Some (t, [])
      | Some (m, others) =>
          if (fst t <=? fst m)%Z then Some (t, rest) else Some (m, t :: others)
      end
  end.

(** Runs the timeouts due by [limit], the earliest first; a timeout never
    runs before its time. *)
Fixpoint run (fuel : nat) (limit : Z) (w : Page) : Page :=
  match fuel with
  | O => w
  | S fuel' =>
      match pick (timers w) with
      | Some ((due, task), others) =>
          if (due <=? limit)%Z then
            run fuel' limit
              (run_task task (set_now (Z.max (now w) due) (set_timers others w)))
          else w
      | None => w
      end
  end.

(** A [Dismiss] can set one [Remove] and a [Remove] sets nothing, so twice
    the number of pending timeouts is fuel enough. *)
Definition wait_until (limit : Z) (w : Page) : Page :=
  let w' := run (2 * List.length (timers w)) limit w in
  set_now (Z.max (now w') limit) w'.

(** What the pending timeouts can still cost in runs. *)
Definition weight (ts : list (Z * Task)) : nat :=
  list_sum (map (fun t => match snd t with Dismiss => 2 | Remove _ => 1 end) ts).

End Alerts.

Module PageSamples.
Import Js Alerts.

(** A page whose container shows one alert the server rendered. *)
Definition flash : AlertElement :=
  {| alert_id := 0;
     markup := "<div class='alert alert-info'>Settings saved</div>";
     style_opacity := EmptyString;
     style_transform := EmptyString |}.

Definition quiet_page : Page :=
  {| main_alerts := Some [flash]; timers := []; now := 1000; next_id := 1 |}.

End PageSamples.

(** ** Configuration templates *)

Module Templates.
Import Text Js.

(** *** Objects with properties of their own

    The properties are kept in the order JavaScript lists them: the keys
    that are array indices first, in ascending order, then the other keys
    in the order they were created. *)

Definition digit_value (c : ascii) : option N :=
  let n := N_of_ascii c in
  if ((48 <=? n) && (n <=? 57))%N then Some (n - 48)%N else None.

Fixpoint digits_value (acc : N) (s : string) : option N :=
  match s with
  | EmptyString => Some acc
  | String c rest =>
      match digit_value c with
      | Some d => digits_value (10 * acc + d)%N rest
      | None => None
      end
  end.

(** The array index a key stands for: a decimal numeral without leading
    zero and below 2^32 - 1. *)
Definition array_index (k : string) : option N :=
  match k with
  | EmptyString => None
  | String c rest =>
      if Ascii.eqb c "0"%char then
        match rest with EmptyString => Some 0%N | _ => None end
      else
        match digits_value 0 k with
        | Some n => if (n <? 4294967295)%N then Some n else None
        | None => None
        end
  end.

Section Properties.
Context {A : Type}.

Fixpoint own (o : list (string * A)) (k : string) : option A :=
  match o with
  | [] => None
  | (k', v) :: rest => if String.eqb k' k then Some v else own rest k
  end.

(** A new value for a property that is there: it keeps its place. *)
Fixpoint replace (k : string) (v : A) (o : list (string * A)) : list (string * A) :=
  match o with
  | [] => []
  | (k', v') :: rest =>
      if String.eqb k' k then (k', v) :: rest else (k', v') :: replace k v rest
  end.

(** A property that was not there: it takes its place in the order. *)
Fixpoint insert (k : string) (v : A) (o : list (string * A)) : list (string * A) :=
  match o with
  | [] => [(k, v)]
  | (k', v') :: rest =>
      match array_index k, array_index k' with
      | Some i, Some j =>
          if (i <? j)%N then (k, v) :: o else (k', v') :: insert k v rest
      | Some _, None => (k, v) :: o
      | None, _ => (k', v') :: insert k v rest
      end
  end.

(** Defining a property, as [Object.fromEntries] does for each entry. *)
Definition define (k : string) (v : A) (o : list (string * A)) : list (string * A) :=
  match own o k with
  | Some _ => replace k v o
  | None => insert k v o
  end.

(** [o[k] = v] for an object [v] on an object made by [JSON.parse]: a
    property of its own is written to, the key [__proto__] otherwise
    reaches the setter of [Object.prototype], which changes the prototype
    and no property, and any other key makes a new property. *)
Definition assign (k : string) (v : A) (o : list (string * A)) : list (string * A) :=
  match own o k with
  | Some _ => replace k v o
  | None => if String.eqb k "__proto__" then o else insert k v o
  end.

End Properties.

(** The fields of a form, and the templates kept under their names. *)
Definition template_data : Type := list (string * string).
Definition template_store : Type := list (string * template_data).

(** [Object.fromEntries(formData)] *)
Definition fromEntries (entries : list (string * string)) : template_data :=
  fold_left (fun o e => define (fst e) (snd e) o) entries [].

(** The last value that the entries give a name. *)
Fixpoint last_value (entries : list (string * string)) (k : string) : option string :=
  match entries with
  | [] => None
  | (k', v) :: rest =>
      match last_value rest k with
      | Some w => Some w
      | None => if String.eqb k' k then Some v else None
      end
  end.

(** What [templates[templateName]] finds: a template of that name, or what
    the name means in [Object.prototype]. *)
Inductive found : Type :=
| Template (data : template_data)
| Inherited (v : value).

Definition lookup (templates : template_store) (name : string) : found :=
  match own templates name with
  | Some data => Template data
  | None => Inherited (object_prototype_get name)
  end.

(** An object is truthy, empty or not. *)
Definition found_truthy (f : found) : bool :=
  match f with
  | Template _ => true
  | Inherited v => truthy v
  end.

(** [Object.keys]: the members of [Object.prototype] have no enumerable
    property of their own. *)
Definition found_keys (f : found) : list string :=
  match f with
  | Template data => map fst data
  | Inherited _ => []
  end.

(** [templateData[key]] for a key that [Object.keys] listed. *)
Definition found_get (f : found) (key : string) : value :=
  match f with
  | Template data =>
      match own data key with
      | Some v => VStr v
      | None => object_prototype_get key
      end
  | Inherited _ => VUndefined
  end.

(** *** What the browser lends *)

(** A call ends, or it stops on an exception. *)
Inductive outcome (A : Type) : Type :=
| Done (a : A)
| Stopped.
Arguments Done {A} a.
Arguments Stopped {A}.

Definition and_then {A B : Type} (c : outcome A) (k : A -> outcome B) : outcome B :=
  match c with
  | Done a => k a
  | Stopped => Stopped
  end.

(** [JSON.parse] and [JSON.stringify] on the texts kept under
    [comparisonTemplates]. [JSON_parse] answers [None] for a text that is
    not the JSON of an object of objects of strings: [JSON.parse] then
    throws, or gives what no call of [saveAsTemplate] has written, and the
    functions below stop there. *)
Class Json : Type := {
  JSON_parse : string -> option template_store;
  JSON_stringify : template_store -> string
}.

(** The document: [querySelector] throws on a selector it cannot read,
    assigning [value] throws on some kinds of field, and dispatching an
    event runs the listeners and comes back. *)
Class Dom : Type := {
  document : Type;
  field : Type;
  querySelector : string -> document -> outcome (option field);
  set_value : field -> value -> document -> outcome document;
  dispatch_input : field -> document -> document
}.

Section Functions.
Context {host : Host} {json : Json} {dom : Dom}.

(** The page, the entry [comparisonTemplates] of [localStorage], the
    document, and the dialogs [prompt] has shown so far. *)
Record App : Type := {
  page : Alerts.Page;
  comparisonTemplates : option string;
  doc : document;
  prompts : list string
}.

Definition set_page (v : Alerts.Page) (app : App) : App :=
  {| page := v; comparisonTemplates := comparisonTemplates app;
     doc := doc app; prompts := prompts app |}.

Definition set_comparisonTemplates (v : option string) (app : App) : App :=
  {| page := page app; comparisonTemplates := v;
     doc := doc app; prompts := prompts app |}.

Definition set_doc (v : document) (app : App) : App :=
  {| page := page app; comparisonTemplates := comparisonTemplates app;
     doc := v; prompts := prompts app |}.

(** [prompt(message)]: the dialog is shown; what the user answers is an
    argument of the functions below, [None] for a dialog cancelled. *)
Definition prompt (message : string) (app : App) : App :=
  {| page := page app; comparisonTemplates := comparisonTemplates app;
     doc := doc app; prompts := (prompts app ++ [message])%list |}.

(** [JSON.parse(localStorage.getItem('comparisonTemplates') || '{}')] *)
Definition parse_templates (app : App) : outcome template_store :=
  let text :=
    match comparisonTemplates app with
    | Some s => if truthy (VStr s) then s else "{}"
    | None => "{}"
    end in
  match JSON_parse text with
  | Some templates => Done templates
  | None => Stopped
  end.

(** [answer] is what [prompt] returns, [formData] the entries of
    [new FormData(document.getElementById('comparisonForm'))], all of them
    strings as the fields of a form without files give them, [None] when
    the document has no such form and the constructor throws. The storage
    is taken to have room for what is written. *)
Definition saveAsTemplate
    (answer : option string) (formData : option (list (string * string)))
    (app : App) : outcome App :=
  let app := prompt "💾 Enter a name for this configuration template:" app in
  match answer with
  | Some templateName =>
      if truthy (VStr templateName) then
        and_then (match formData with Some e => Done e | None => Stopped end)
          (fun formData =>
        let templateData := fromEntries formData in
        (* Save to localStorage *)
        and_then (parse_templates app) (fun templates =>
        let templates := assign templateName templateData templates in
        let app :=
          set_comparisonTemplates (Some (JSON_stringify templates)) app in
        Done (set_page
                (Alerts.showStatusMessage
                   (VStr (template ["Template "; dq; templateName; dq;
                                    " saved successfully! 🎉"]))
                   (VStr "success") None (page app))
                app)))
      else Done app
  | None => Done app
  end.

(** The arrow function given to [forEach]. *)
Definition fill_field (templateData : found) (key : string) (d : document)
    : outcome document :=
  and_then (querySelector (template ["[name="; dq; key; dq; "]"]) d)
    (fun field =>
       match field with
       | Some field =>
           and_then (set_value field (found_get templateData key) d)
             (fun d => Done (dispatch_input field d))
       | None => Done d
       end).

Fixpoint forEach (keys : list string) (f : string -> document -> outcome document)
    (d : document) : outcome document :=
  match keys with
  | [] => Done d
  | key :: rest => and_then (f key d) (forEach rest f)
  end.

Definition loadTemplate (answer : option string) (app : App) : outcome App :=
  and_then (parse_templates app) (fun templates =>
  let templateNames := map fst templates in
  match templateNames with
  | [] =>
      Done (set_page
              (Alerts.showStatusMessage
                 (VStr "No saved templates found. Create one first! 📝")
                 (VStr "warning") None (page app))
              app)
  | _ :: _ =>
      let app :=
        prompt (template ["📋 Choose a template to load:"; nl; nl;
                          join nl templateNames]) app in
      match answer with
      | Some templateName =>
          if truthy (VStr templateName)
             && found_truthy (lookup templates templateName)
          then
            let templateData := lookup templates templateName in
            (* Fill form with template data *)
            and_then (forEach (found_keys templateData)
                        (fill_field templateData) (doc app))
              (fun d =>
                 let app := set_doc d app in
                 Done (set_page
                         (Alerts.showStatusMessage
                            (VStr (template ["Template "; dq; templateName; dq;
                                             " loaded successfully! ✨"]))
                            (VStr "success") None (page app))
                         app))
          else Done app
      | None => Done app
      end
  end).

End Functions.

End Templates.

(** ** Page animations *)

Module Animations.
Import Js.

(** The three style properties the animations write. *)
Record Style : Type := {
  opacity : string;
  transform : string;
  transition : string
}.

(** The arrow functions given to [setTimeout]: the one of the card at
    [index], and the one of the hero. *)
Inductive Task : Type :=
| RevealCard (index : nat)
| RevealHero.

(** [cards] are the elements of class [card] in document order, [hero] the
    first element of class [display-5], which is taken not to be a card. *)
Record Page : Type := {
  cards : list Style;
  hero : option Style;
  timers : list (Z * Task);
  now : Z
}.

(** [cards.forEach((card, index) => ...)]: each card is hidden and gets a
    timeout of [index * 150]; the timeouts are set in the order of the cards. *)
Fixpoint stagger (index : nat) (cards : list Style) (now : Z)
    : list Style * list (Z * Task) :=
  match cards with
  | [] => ([], [])
  | card :: rest =>
      let (cards', timeouts) := stagger (S index) rest now in
      ({| opacity := "0"; transform := "translateY(30px)";
          transition := transition card |} :: cards',
       ((now + Z.of_nat index * 150)%Z, RevealCard index) :: timeouts)
  end.

Definition initPageAnimations (p : Page) : Page :=
  (* Staggered animation for cards *)
  let (cards', timeouts) := stagger 0 (cards p) (now p) in
  let timers' := (timers p ++ timeouts)%list in
  (* Animate hero section *)
  match hero p with
  | Some h =>
      {| cards := cards';
         hero := Some {| opacity := "0"; transform := "translateY(20px)";
                         transition := transition h |};
         timers := (timers' ++ [((now p + 200)%Z, RevealHero)])%list;
         now := now p |}
  | None =>
      {| cards := cards'; hero := None; timers := timers'; now := now p |}
  end.

Fixpoint set_nth {A : Type} (i : nat) (v : A) (l : list A) : list A :=
  match l, i with
  | [], _ => []
  | _ :: rest, O => v :: rest
  | x :: rest, S i' => x :: set_nth i' v rest
  end.

Definition run_task (task : Task) (p : Page) : Page :=
  match task with
  | RevealCard index =>
      {| cards :=
           set_nth index
             {| opacity := "1"; transform := "translateY(0)";
                transition := "all 0.6s cubic-bezier(0.4, 0, 0.2, 1)" |}
             (cards p);
         hero := hero p; timers := timers p; now := now p |}
  | RevealHero =>
      {| cards := cards p;
         hero :=
           match hero p with
           | Some _ =>
               Some {| opacity := "1"; transform := "translateY(0)";
                       transition := "all 0.8s cubic-bezier(0.4, 0, 0.2, 1)" |}
           | None => None
           end;
         timers := timers p; now := now p |}
  end.

(** Runs the timeouts due by [limit], the earliest first. *)
Fixpoint run (fuel : nat) (limit : Z) (p : Page) : Page :=
  match fuel with
  | O => p
  | S fuel' =>
      match Alerts.pick (timers p) with
      | Some ((due, task), others) =>
          if (due <=? limit)%Z then
            run fuel' limit
              (run_task task
                 {| cards := cards p; hero := hero p; timers := others;
                    now := Z.max (now p) due |})
          else p
      | None => p
      end
  end.

(** These timeouts set no other, so one run for each is fuel enough. *)
Definition wait_until (limit : Z) (p : Page) : Page :=
  let p' := run (List.length (timers p)) limit p in
  {| cards := cards p'; hero := hero p'; timers := timers p';
     now := Z.max (now p') limit |}.

(** A card as the script hides it, and as its timeout shows it. *)
Definition hidden_card (c : Style) : Style :=
  {| opacity := "0"; transform := "translateY(30px)";
     transition := transition c |}.

Definition shown_card : Style :=
  {| opacity := "1"; transform := "translateY(0)";
     transition := "all 0.6s cubic-bezier(0.4, 0, 0.2, 1)" |}.

Definition hidden_hero (h : Style) : Style :=
  {| opacity := "0"; transform := "translateY(20px)";
     transition := transition h |}.

Definition shown_hero : Style :=
  {| opacity := "1"; transform := "translateY(0)";
     transition := "all 0.8s cubic-bezier(0.4, 0, 0.2, 1)" |}.

(** Between the call at time [base] and the time [limit], each card of the
    page [original] is hidden with its timeout pending, or shown, its time
    having come; so is the hero; and every timeout is due when it was set
    to be. *)
Definition staged (original : Page) (limit : Z) (p : Page) : Prop :=
  Forall
    (fun t =>
       match snd t with
       | RevealCard i => fst t = (now original + Z.of_nat i * 150)%Z
       | RevealHero => fst t = (now original + 200)%Z
       end)
    (timers p)
  /\ List.length (cards p) = List.length (cards original)
  /\ (forall i c,
        nth_error (cards original) i = Some c ->
        (nth_error (cards p) i = Some (hidden_card c)
         /\ In ((now original + Z.of_nat i * 150)%Z, RevealCard i) (timers p))
        \/ (nth_error (cards p) i = Some shown_card
            /\ (now original + Z.of_nat i * 150 <= limit)%Z))
  /\ (forall h,
        hero original = Some h ->
        (hero p = Some (hidden_hero h)
         /\ In ((now original + 200)%Z, RevealHero) (timers p))
        \/ (hero p = Some shown_hero /\ (now original + 200 <= limit)%Z)).

(** A page of three cards under a hero, as it loads. *)
Definition plain : Style :=
  {| opacity := EmptyString; transform := EmptyString;
     transition := EmptyString |}.

Definition loading_page : Page :=
  {| cards := [plain; plain; plain]; hero := Some plain; timers := []; now := 0 |}.

End Animations.

(** ** A browser for the templates: a small JSON, a form of text fields *)

Module TemplateSamples.
Import Text Js Templates.

Definition is_dq (c : ascii) : bool := Ascii.eqb c (ascii_of_nat 34).
Definition is_backslash (c : ascii) : bool := Ascii.eqb c (ascii_of_nat 92).

Fixpoint escape (s : string) : string :=
  match s with
  | EmptyString => EmptyString
  | String c rest =>
      if is_dq c || is_backslash c
      then String (ascii_of_nat 92) (String c (escape rest))
      else String c (escape rest)
  end.

Definition quote (s : string) : string := dq ++ escape s ++ dq.

Definition write_object {A : Type} (write : A -> string) (o : list (string * A))
    : string :=
  "{" ++ join "," (map (fun p => quote (fst p) ++ ":" ++ write (snd p)) o) ++ "}".

Definition stringify (templates : template_store) : string :=
  write_object (write_object quote) templates.

(** The rest of a string literal, its opening quote read. *)
Fixpoint read_string (s : string) : option (string * string) :=
  match s with
  | EmptyString => None
  | String c rest =>
      if is_dq c then Some (EmptyString, rest)
      else if is_backslash c then
        match rest with
        | String c' rest' =>
            match read_string rest' with
            | Some (t, r) => Some (String c' t, r)
            | None => None
            end
        | EmptyString => None
        end
      else
        match read_string rest with
        | Some (t, r) => Some (String c t, r)
        | None => None
        end
  end.

Definition read_quoted (s : string) : option (string * string) :=
  match s with
  | String c rest => if is_dq c then read_string rest else None
  | EmptyString => None
  end.

Section Objects.
Context {A : Type} (read_value : string -> option (A * string)).

Fixpoint read_members (fuel : nat) (s : string) : option (list (string * A) * string) :=
  match fuel with
  | O => None
  | S fuel' =>
      match read_quoted s with
      | Some (k, String ":" r) =>
          match read_value r with
          | Some (v, String "," r') =>
              match read_members fuel' r' with
              | Some (l, r'') => Some ((k, v) :: l, r'')
              | None => None
              end
          | Some (v, String "}" r') => Some ([(k, v)], r')
          | _ => None
          end
      | _ => None
      end
  end.

Definition read_object (fuel : nat) (s : string) : option (list (string * A) * string) :=
  match s with
  | String "{" (String "}" r) => Some ([], r)
  | String "{" r =>
      match read_members fuel r with
      | Some (l, r') =>
          Some (fold_left (fun o e => define (fst e) (snd e) o) l [], r')
      | None => None
      end
  | _ => None
  end.

End Objects.

Definition parse (s : string) : option template_store :=
  let fuel := String.length s in
  match read_object (read_object read_quoted fuel) fuel s with
  | Some (templates, EmptyString) => Some templates
  | _ => None
  end.

Definition small_json : Json :=
  {| JSON_parse := parse; JSON_stringify := stringify |}.

(** A document of text fields: their names and what they hold. *)
Definition text_fields : Dom :=
  {| document := list (string * string);
     field := string;
     querySelector := fun selector d =>
       Done (find (fun n => String.eqb (template ["[name="; dq; n; dq; "]"]) selector)
               (map fst d));
     set_value := fun f v d =>
       Done (replace f (@to_string Browser.en_US_host v) d);
     dispatch_input := fun _ d => d |}.

Definition comparison_form : list (string * string) :=
  [ ("dev_table", "sales.orders"); ("prod_table", "sales.orders");
    ("primary_key", "order_id"); ("max_rows", "10000");
    ("primary_key", "order_id,line") ].

(** The application before any template was saved. *)
Definition empty_form : @document text_fields :=
  [ ("dev_table", EmptyString); ("prod_table", EmptyString);
    ("primary_key", EmptyString); ("max_rows", EmptyString) ].

Definition fresh_app : @App text_fields :=
  @Build_App text_fields PageSamples.quiet_page None empty_form [].

End TemplateSamples.

(** * Properties *)

Import Text Js Comparator.

(** ** Strings and templates *)

Lemma append_assoc (a b c : string) : (a ++ b) ++ c = a ++ b ++ c.
Proof.
  induction a as [|x a IH]; simpl; [reflexivity | now rewrite IH].
Qed.

Lemma append_empty_r (a : string) : a ++ EmptyString = a.
Proof.
  induction a as [|x a IH]; simpl; [reflexivity | now rewrite IH].
Qed.

Lemma template_cons (s : string) (l : list string) :
  template (s :: l) = s ++ template l.
Proof.
  unfold template. destruct l as [|t l]; simpl.
  - now rewrite append_empty_r.
  - reflexivity.
Qed.

Lemma template_app (l1 l2 : list string) :
  template (l1 ++ l2)%list = template l1 ++ template l2.
Proof.
  induction l1 as [|s l1 IH].
  - reflexivity.
  - rewrite <- app_comm_cons, !template_cons, IH. now rewrite append_assoc.
Qed.

Lemma contains_trans (a b c : string) :
  contains a b -> contains b c -> contains a c.
Proof.
  intros (p & q & ->) (p' & q' & ->).
  exists (p' ++ p), (q ++ q'). now rewrite !append_assoc.
Qed.

Lemma contains_inside (before needle after : string) :
  contains needle (before ++ needle ++ after).
Proof. now exists before, after. Qed.

Lemma prefix_append (a b : string) : String.prefix a (a ++ b) = true.
Proof.
  induction a as [|x a IH]; simpl; [now destruct b|].
  destruct (ascii_dec x x) as [_|Hne]; [exact IH | now elim Hne].
Qed.

(** A run of consecutive fragments of a template occurs in it. *)
Lemma contains_fragments (n k : nat) (parts : list string) :
  contains (template (firstn k (skipn n parts))) (template parts).
Proof.
  exists (template (firstn n parts)), (template (skipn k (skipn n parts))).
  rewrite <- !template_app, !firstn_skipn. reflexivity.
Qed.

(** ** The heap *)

Lemma update_here f (h : heap) (a : list elem) (t : heap) :
  update (List.length h) f (h ++ a :: t)%list = (h ++ f a :: t)%list.
Proof.
  induction h as [|b h IH]; simpl; [reflexivity | now rewrite IH].
Qed.

Lemma nth_here (h : heap) (a : list elem) (t : heap) :
  nth (List.length h) (h ++ a :: t)%list [] = a.
Proof.
  induction h as [|b h IH]; simpl; [reflexivity | exact IH].
Qed.

Lemma push_here (h : heap) (a : list elem) (t : heap) (e : elem) :
  push (List.length h) e (h ++ a :: t)%list = (tt, (h ++ (a ++ [e]) :: t)%list).
Proof. unfold push. now rewrite update_here. Qed.

Lemma bind_run {A B : Type} (c : M A) (k : A -> M B) (h h' : heap) (a : A) :
  c h = (a, h') -> bind c k h = k a h'.
Proof. intros E. unfold bind. now rewrite E. Qed.

Lemma new_array_run (h : heap) : new_array h = (List.length h, (h ++ [[]])%list).
Proof. reflexivity. Qed.

Lemma join_array_here (h : heap) (a : list elem) (t : heap) (sep : string) :
  join_array (List.length h) sep (h ++ a :: t)%list
  = (join sep (map elem_to_string a), (h ++ a :: t)%list).
Proof. unfold join_array, bind, read, ret. now rewrite nth_here. Qed.

Lemma map_array_here (h : heap) (a : list elem) (t : heap) (f : elem -> string) :
  map_array (List.length h) f (h ++ a :: t)%list
  = (List.length (h ++ a :: t)%list,
     ((h ++ a :: t) ++ [map (fun e => EStr (f e)) a])%list).
Proof. unfold map_array, bind, read. now rewrite nth_here. Qed.

(** A [push] guarded by a test. *)
Lemma push_if_here (c : bool) (h : heap) (a : list elem) (t : heap) (e : elem) :
  (if c then push (List.length h) e else ret tt) (h ++ a :: t)%list
  = (tt, (h ++ (a ++ if c then [e] else []) :: t)%list).
Proof.
  destruct c.
  - apply push_here.
  - unfold ret. now rewrite app_nil_r.
Qed.

(** ** What each check does to the heap *)

Section Checks.
Context {host : Host}.

Lemma schema_check_run (d : ComparisonResult) (h : heap) (a : list elem) (t : heap) :
  schema_check (List.length h) d (h ++ a :: t)%list
  = (tt, (h ++ (a ++ [EIssue (schema_entry d)]) :: t)%list).
Proof.
  unfold schema_check, schema_entry.
  destruct (schema_differences d) as [| |diffs]; try apply push_here.
  destruct (Z.of_nat (List.length diffs) >? 0)%Z; apply push_here.
Qed.

Lemma row_count_check_run (d : ComparisonResult) (h : heap) (a : list elem) (t : heap) :
  row_count_check (List.length h) d (h ++ a :: t)%list
  = (tt, (h ++ (a ++ [EIssue (row_count_entry d)]) :: t)%list).
Proof.
  unfold row_count_check, row_count_entry.
  destruct (negb (dev_row_count d =? prod_row_count d)%Z); apply push_here.
Qed.

Lemma coverage_check_run (d : ComparisonResult) (h : heap) (a : list elem) (t : heap) :
  coverage_check (List.length h) d (h ++ a :: t)%list
  = (tt, (h ++ (a ++ [EIssue (coverage_entry d)]) :: t)%list).
Proof.
  unfold coverage_check, coverage_entry.
  destruct (was_limited d); apply push_here.
Qed.

(** The strings that end up in [dataIssues] are those of [data_issues]. *)
Lemma data_issues_elems (s : Summary) (e1 e2 e3 : string) :
  e1 = number_to_string (total_differing s) ++ " differing" ->
  e2 = number_to_string (total_missing_dev s) ++ " missing from DEV" ->
  e3 = number_to_string (total_missing_prod s) ++ " missing from PROD" ->
  ((([] ++ (if (total_differing s >? 0)%Z then [EStr e1] else []))
    ++ (if (total_missing_dev s >? 0)%Z then [EStr e2] else []))
   ++ (if (total_missing_prod s >? 0)%Z then [EStr e3] else []))%list
  = map EStr (data_issues s).
Proof.
  intros -> -> ->. unfold data_issues.
  destruct (total_differing s >? 0)%Z, (total_missing_dev s >? 0)%Z,
    (total_missing_prod s >? 0)%Z; reflexivity.
Qed.

Lemma elem_to_string_EStr (l : list string) : map elem_to_string (map EStr l) = l.
Proof.
  induction l as [|s l IH]; simpl; [reflexivity | now rewrite IH].
Qed.

Lemma data_differences_check_run (d : ComparisonResult) (h : heap) (a : list elem) :
  data_differences_check (List.length h) d (h ++ [a])%list
  = (tt, (h ++ (a ++ [EIssue (data_entry d)])
            :: (if any_data_difference (summary d)
                then [map EStr (data_issues (summary d))] else []))%list).
Proof.
  unfold data_differences_check, data_entry.
  fold (any_data_difference (summary d)).
  destruct (any_data_difference (summary d)).
  - rewrite (bind_run _ _ _ _ _ (new_array_run _)).
    rewrite (bind_run _ _ _ _ _ (push_if_here _ (h ++ [a])%list [] [] _)).
    rewrite (bind_run _ _ _ _ _ (push_if_here _ (h ++ [a])%list _ [] _)).
    rewrite (bind_run _ _ _ _ _ (push_if_here _ (h ++ [a])%list _ [] _)).
    rewrite (bind_run _ _ _ _ _ (join_array_here (h ++ [a])%list _ [] _)).
    rewrite (data_issues_elems (summary d) _ _ _ eq_refl eq_refl eq_refl).
    rewrite elem_to_string_EStr, <- app_assoc. simpl.
    apply push_here.
  - apply push_here.
Qed.

(** The whole of the non-identical case. *)
Lemma run_not_identical (d : ComparisonResult) (h : heap) :
  tables_identical d = false ->
  getDetailedStatusMessage d h
  = (analysis_results (join EmptyString (map render_issue (entries d))),
     (h ++ arrays_left d)%list).
Proof.
  intros Hid. unfold getDetailedStatusMessage. rewrite Hid.
  rewrite (bind_run _ _ _ _ _ (new_array_run h)).
  rewrite (bind_run _ _ _ _ _ (schema_check_run d h [] [])).
  rewrite (bind_run _ _ _ _ _ (row_count_check_run d h _ [])).
  rewrite (bind_run _ _ _ _ _ (data_differences_check_run d h _)).
  rewrite (bind_run _ _ _ _ _ (coverage_check_run d h _ _)).
  rewrite (bind_run _ _ _ _ _ (map_array_here h _ _ _)).
  rewrite (bind_run _ _ _ _ _ (join_array_here _ _ [] _)).
  unfold ret, arrays_left, entries.
  rewrite map_map. cbn [List.app elem_to_string].
  f_equal. now rewrite <- app_assoc.
Qed.

Lemma run_identical (d : ComparisonResult) (h : heap) :
  tables_identical d = true ->
  getDetailedStatusMessage d h
  = (perfect_match (toLocaleString (dev_row_count d)), h).
Proof.
  intros Hid. unfold getDetailedStatusMessage. now rewrite Hid.
Qed.

Lemma issues_of_not_identical (d : ComparisonResult) (h : heap) :
  tables_identical d = false -> issues_of d h = entries d.
Proof.
  intros Hid. unfold issues_of. rewrite (run_not_identical d h Hid).
  unfold arrays_left. cbn [List.app snd]. apply nth_here.
Qed.

End Checks.

(** ** The sampling phrase *)

Section SamplingPhrase.
Context {host : Host}.

Lemma getSamplingMethodText_LAST_N :
  getSamplingMethodText (VStr "LAST_N") = VStr "most recent".
Proof. reflexivity. Qed.

Lemma getSamplingMethodText_RANDOM :
  getSamplingMethodText (VStr "RANDOM") = VStr "random sample of".
Proof. reflexivity. Qed.

Lemma getSamplingMethodText_TOP_N :
  getSamplingMethodText (VStr "TOP_N") = VStr "first".
Proof. reflexivity. Qed.

Lemma getSamplingMethodText_null : getSamplingMethodText VNull = VStr "first".
Proof. reflexivity. Qed.

Lemma getSamplingMethodText_undefined :
  getSamplingMethodText VUndefined = VStr "first".
Proof. reflexivity. Qed.

(** The fallback is reached by every key that neither the table nor
    [Object.prototype] knows. *)
Lemma getSamplingMethodText_fallback (method : value) :
  to_string method <> "LAST_N" ->
  to_string method <> "RANDOM" ->
  to_string method <> "TOP_N" ->
  object_prototype_get (to_string method) = VUndefined ->
  getSamplingMethodText method = VStr "first".
Proof.
  intros H1 H2 H3 Hp. unfold getSamplingMethodText, get_property.
  cbn [own_property].
  rewrite (proj2 (String.eqb_neq _ _)) by (intro E; now apply H1).
  rewrite (proj2 (String.eqb_neq _ _)) by (intro E; now apply H2).
  rewrite (proj2 (String.eqb_neq _ _)) by (intro E; now apply H3).
  now rewrite Hp.
Qed.

(** Whatever comes out of the table or the fallback is a phrase: the only
    other results are the members of [Object.prototype]. *)
Lemma getSamplingMethodText_cases (method : value) :
  getSamplingMethodText method = VStr "most recent"
  \/ getSamplingMethodText method = VStr "random sample of"
  \/ getSamplingMethodText method = VStr "first"
  \/ (object_prototype_get (to_string method) <> VUndefined
      /\ getSamplingMethodText method = object_prototype_get (to_string method)).
Proof.
  unfold getSamplingMethodText, get_property. cbn [own_property].
  destruct (String.eqb "LAST_N" (to_string method)); [now left|].
  destruct (String.eqb "RANDOM" (to_string method)); [now right; left|].
  destruct (String.eqb "TOP_N" (to_string method)); [now right; right; left|].
  unfold object_prototype_get.
  destruct (String.eqb (to_string method) "constructor");
    [right; right; right; split; [discriminate | reflexivity]|].
  destruct (String.eqb (to_string method) "__proto__");
    [right; right; right; split; [discriminate | reflexivity]|].
  destruct (existsb (String.eqb (to_string method)) object_prototype_methods);
    [right; right; right; split; [discriminate | reflexivity]|].
  right; right; left; reflexivity.
Qed.

End SamplingPhrase.

(** C7: [getSamplingMethodText] maps LAST_N, RANDOM and TOP_N to their
    phrases and is meant to map every other input to "first"; on the key
    "toString", which the table inherits from [Object.prototype], it
    returns that built-in function instead: not a string, and not "first"
    once a template literal has converted it. *)
Theorem getSamplingMethodText_inherited_key :
  (forall host : Host,
      @getSamplingMethodText host (VStr "toString") = VFunction "toString")
  /\ @to_string Browser.en_US_host
       (@getSamplingMethodText Browser.en_US_host (VStr "toString"))
     = "function toString() { [native code] }"
  /\ @to_string Browser.en_US_host
       (@getSamplingMethodText Browser.en_US_host (VStr "toString"))
     <> "first".
Proof.
  split; [reflexivity|]. split; [reflexivity|]. discriminate.
Qed.

(** ** The identical case *)

(** C2: when [tables_identical] is true the call returns the one
    success-styled panel and pushes nothing: the markup is the fixed
    template around the formatted [dev_row_count], it carries the four
    affirmations (schema match, the row count, data identical, complete
    analysis), and the header class is the success one. *)
Theorem identical_single_success_report
    (host : Host) (d : ComparisonResult) (h : heap) :
  tables_identical d = true ->
  getDetailedStatusMessage d h
  = (perfect_match (toLocaleString (dev_row_count d)), h)
  /\ contains "<span>Schema Match</span>" (message_of d h)
  /\ contains ("<span>" ++ toLocaleString (dev_row_count d) ++ " Rows</span>")
       (message_of d h)
  /\ contains "<span>Data Identical</span>" (message_of d h)
  /\ contains "<span>Complete Analysis</span>" (message_of d h)
  /\ getComparisonStatusClass d = "card-header bg-success text-white".
Proof.
  intros Hid. unfold message_of, getComparisonStatusClass.
  rewrite (run_identical d h Hid), Hid. cbn [fst].
  split; [reflexivity|].
  unfold perfect_match.
  split.
  { eapply contains_trans; [|apply (contains_fragments 9 1)].
    cbn [firstn skipn]. apply (contains_inside (sp 24) _ nl). }
  split.
  { eapply contains_trans; [|apply (contains_fragments 15 3)].
    cbn [firstn skipn]. exists (sp 24), nl.
    rewrite !template_cons. cbn [template String.concat].
    now rewrite !append_assoc, append_empty_r. }
  split.
  { eapply contains_trans; [|apply (contains_fragments 23 1)].
    cbn [firstn skipn]. apply (contains_inside (sp 24) _ nl). }
  split; [|reflexivity].
  eapply contains_trans; [|apply (contains_fragments 29 1)].
  cbn [firstn skipn]. apply (contains_inside (sp 24) _ nl).
Qed.

Lemma identical_single_success_report_witness :
  tables_identical Samples.agreeing = true
  /\ contains "<span>1,000 Rows</span>"
       (@message_of Browser.en_US_host Samples.agreeing [])
  /\ @getComparisonStatusClass Samples.agreeing
     = "card-header bg-success text-white".
Proof.
  split; [reflexivity|].
  destruct (identical_single_success_report
              Browser.en_US_host Samples.agreeing [] eq_refl)
    as (_ & _ & Hrows & _ & _ & Hclass).
  split; [exact Hrows | exact Hclass].
Defined.

(** ** The non-identical case *)

(** The markup of the non-identical case, character by character: the
    heading, then one block for each of four entries, with its icon, its
    type twice and its text, then the closing lines. *)
Lemma analysis_markup_of_entries (host : Host) (e1 e2 e3 e4 : Issue) :
  let q := String (ascii_of_nat 34) EmptyString in
  let lf := String (ascii_of_nat 10) EmptyString in
  let block := fun e : Issue =>
    "<div class=" ++ q ++ "d-flex align-items-center mb-2" ++ q ++ ">" ++ lf
    ++ "                <i class=" ++ q ++ "fas " ++ icon e
    ++ " me-2 text-" ++ type e ++ q ++ "></i>" ++ lf
    ++ "                <span class=" ++ q ++ "text-" ++ type e ++ q ++ ">"
    ++ text e ++ "</span>" ++ lf
    ++ "            </div>" in
  analysis_results
    (join EmptyString (map render_issue [EIssue e1; EIssue e2; EIssue e3; EIssue e4]))
  = lf ++ "            <div class=" ++ q ++ "mb-3" ++ q ++ ">" ++ lf
    ++ "                <h6 class=" ++ q ++ "text-muted mb-3" ++ q ++ ">" ++ lf
    ++ "                    <i class=" ++ q ++ "fas fa-clipboard-check me-2"
    ++ q ++ "></i>" ++ lf
    ++ "                    Analysis Results" ++ lf
    ++ "                </h6>" ++ lf
    ++ "                "
    ++ block e1 ++ block e2 ++ block e3 ++ block e4 ++ lf
    ++ "            </div>" ++ lf
    ++ "        ".
Proof.
  destruct e1 as [i1 x1 t1], e2 as [i2 x2 t2], e3 as [i3 x3 t3], e4 as [i4 x4 t4].
  cbv zeta. unfold analysis_results, render_issue, join.
  cbn [map String.concat field to_string icon text type].
  rewrite !template_cons. cbn [template String.concat].
  rewrite ?append_assoc, ?append_empty_r. cbn.
  rewrite ?append_assoc, ?append_empty_r.
  reflexivity.
Qed.

(** C1: when [tables_identical] is false the array [issues] ends with
    exactly four objects, the schema one first, then the row count one, the
    data one and the coverage one; the markup returned is the heading
    followed by the four of them in that order, each with its icon, its
    type and its text, and by nothing else; and the header class is the
    warning one, which never mentions danger, whatever the types of the
    four entries. *)
Theorem not_identical_four_entries
    (host : Host) (d : ComparisonResult) (h : heap) :
  tables_identical d = false ->
  exists schema rows data coverage : Issue,
    issues_of d h = [EIssue schema; EIssue rows; EIssue data; EIssue coverage]
    /\ String.prefix "Schema " (text schema) = true
    /\ String.prefix "Row count" (text rows) = true
    /\ (String.prefix "Data differences: " (text data) = true
        \/ text data = "Compared data identical")
    /\ (String.prefix "Limited analysis: " (text coverage) = true
        \/ text coverage = "Complete table analysis")
    /\ message_of d h
       = analysis_results (join EmptyString (map render_issue (issues_of d h)))
    /\ getComparisonStatusClass d = "card-header bg-warning text-dark"
    /\ occurs "bg-warning" (getComparisonStatusClass d) = true
    /\ occurs "danger" (getComparisonStatusClass d) = false
    /\ In (type schema) ["danger"; "success"]
    /\ In (type rows) ["danger"; "success"]
    /\ In (type data) ["danger"; "success"]
    /\ In (type coverage) ["warning"; "success"]
    /\ (let q := String (ascii_of_nat 34) EmptyString in
        let lf := String (ascii_of_nat 10) EmptyString in
        let block := fun e : Issue =>
          "<div class=" ++ q ++ "d-flex align-items-center mb-2" ++ q ++ ">" ++ lf
          ++ "                <i class=" ++ q ++ "fas " ++ icon e
          ++ " me-2 text-" ++ type e ++ q ++ "></i>" ++ lf
          ++ "                <span class=" ++ q ++ "text-" ++ type e ++ q ++ ">"
          ++ text e ++ "</span>" ++ lf
          ++ "            </div>" in
        message_of d h
        = lf ++ "            <div class=" ++ q ++ "mb-3" ++ q ++ ">" ++ lf
          ++ "                <h6 class=" ++ q ++ "text-muted mb-3" ++ q ++ ">" ++ lf
          ++ "                    <i class=" ++ q ++ "fas fa-clipboard-check me-2"
          ++ q ++ "></i>" ++ lf
          ++ "                    Analysis Results" ++ lf
          ++ "                </h6>" ++ lf
          ++ "                "
          ++ block schema ++ block rows ++ block data ++ block coverage ++ lf
          ++ "            </div>" ++ lf
          ++ "        ").
Proof.
  intros Hid.
  exists (schema_entry d), (row_count_entry d), (data_entry d), (coverage_entry d).
  rewrite (issues_of_not_identical d h Hid).
  unfold message_of, getComparisonStatusClass.
  rewrite (run_not_identical d h Hid), Hid. cbn [fst].
  split; [reflexivity|].
  split.
  { unfold schema_entry. destruct (schema_differences d) as [| |diffs];
      try reflexivity.
    destruct (Z.of_nat (List.length diffs) >? 0)%Z; reflexivity. }
  split.
  { unfold row_count_entry.
    destruct (negb (dev_row_count d =? prod_row_count d)%Z); reflexivity. }
  split.
  { unfold data_entry. destruct (any_data_difference (summary d));
      [left; apply prefix_append | right; reflexivity]. }
  split.
  { unfold coverage_entry. destruct (was_limited d);
      [left; apply prefix_append | right; reflexivity]. }
  split; [reflexivity|]. split; [reflexivity|]. split; [reflexivity|].
  split; [reflexivity|].
  split.
  { unfold schema_entry. destruct (schema_differences d) as [| |diffs];
      [right; now left | right; now left |].
    destruct (Z.of_nat (List.length diffs) >? 0)%Z; [now left | right; now left]. }
  split.
  { unfold row_count_entry.
    destruct (negb (dev_row_count d =? prod_row_count d)%Z);
      [now left | right; now left]. }
  split.
  { unfold data_entry. destruct (any_data_difference (summary d));
      [now left | right; now left]. }
  split.
  { unfold coverage_entry. destruct (was_limited d);
      [now left | right; now left]. }
  apply (analysis_markup_of_entries host).
Qed.

Lemma not_identical_four_entries_witness :
  tables_identical Samples.all_wrong = false
  /\ List.length (@issues_of Browser.en_US_host Samples.all_wrong []) = 4%nat
  /\ getComparisonStatusClass Samples.all_wrong = "card-header bg-warning text-dark"
  /\ map (fun needle =>
            occurs needle (@message_of Browser.en_US_host Samples.all_wrong []))
       [ "text-danger" ++ dq ++ ">Schema differences (1)</span>";
         "text-danger" ++ dq ++ ">Row count mismatch: DEV(4,998) vs PROD(5,000)</span>";
         "text-danger" ++ dq
           ++ ">Data differences: 5 differing, 2 missing from PROD</span>";
         "text-warning" ++ dq
           ++ ">Limited analysis: random sample of 5,000 rows</span>";
         "Perfect Match" ]
     = [true; true; true; true; false].
Proof.
  split; [reflexivity|].
  destruct (not_identical_four_entries
              Browser.en_US_host Samples.all_wrong [] eq_refl)
    as (e1 & e2 & e3 & e4 & Hissues & _ & _ & _ & _ & _ & Hclass & _ & _
        & _ & _ & _ & _ & Hmarkup).
  split; [now rewrite Hissues|]. split; [exact Hclass|].
  cbv zeta in Hmarkup. rewrite Hmarkup.
  assert (Hentries : [EIssue e1; EIssue e2; EIssue e3; EIssue e4]
                     = @entries Browser.en_US_host Samples.all_wrong).
  { rewrite <- Hissues. now vm_compute. }
  injection Hentries as -> -> -> ->. now vm_compute.
Defined.

(** C5: in the non-identical case, with [schema_differences] an array, the
    schema entry is a danger one that carries the number of differences when
    the array is not empty, and the success one reading "Schema identical"
    when it is empty. *)
Theorem schema_entry_by_emptiness
    (host : Host) (d : ComparisonResult) (h : heap)
    (diffs : list SchemaDifference) :
  tables_identical d = false ->
  schema_differences d = Array diffs ->
  (diffs <> [] ->
   nth_error (issues_of d h) 0
   = Some (EIssue
       {| icon := "fa-exclamation-triangle";
          text := "Schema differences ("
                  ++ number_to_string (Z.of_nat (List.length diffs)) ++ ")";
          type := "danger" |}))
  /\ (diffs = [] ->
      nth_error (issues_of d h) 0
      = Some (EIssue
          {| icon := "fa-check"; text := "Schema identical"; type := "success" |})).
Proof.
  intros Hid Hdiffs. rewrite (issues_of_not_identical d h Hid).
  unfold entries, schema_entry. rewrite Hdiffs. cbn [nth_error].
  split.
  - intros Hne. destruct diffs as [|x diffs]; [now elim Hne|].
    replace (Z.of_nat (List.length (x :: diffs)) >? 0)%Z with true; [reflexivity|].
    symmetry. apply Z.gtb_lt. cbn [List.length]. lia.
  - intros ->. reflexivity.
Qed.

Lemma schema_entry_by_emptiness_witness :
  tables_identical Samples.schema_drift = false
  /\ nth_error (@issues_of Browser.en_US_host Samples.schema_drift []) 0
     = Some (EIssue
         {| icon := "fa-exclamation-triangle";
            text := "Schema differences (2)";
            type := "danger" |}).
Proof.
  split; [reflexivity|].
  refine (proj1 (schema_entry_by_emptiness
                   Browser.en_US_host Samples.schema_drift [] _ eq_refl eq_refl) _).
  discriminate.
Defined.

(** C10: in the non-identical case, a [schema_differences] that is
    [undefined] or [null] stops no call: the schema entry is the success one
    reading "Schema identical", and the call returns and leaves what it does
    for the empty array. *)
Theorem schema_entry_when_absent
    (host : Host) (d : ComparisonResult) (h : heap) :
  tables_identical d = false ->
  schema_differences d = Undefined \/ schema_differences d = Null ->
  nth_error (issues_of d h) 0
  = Some (EIssue
      {| icon := "fa-check"; text := "Schema identical"; type := "success" |})
  /\ getDetailedStatusMessage d h
     = getDetailedStatusMessage (with_schema_differences d (Array [])) h.
Proof.
  intros Hid Habsent.
  assert (Hentry : schema_entry d
                   = {| icon := "fa-check"; text := "Schema identical";
                        type := "success" |}).
  { unfold schema_entry. now destruct Habsent as [-> | ->]. }
  split.
  - rewrite (issues_of_not_identical d h Hid). unfold entries.
    now rewrite Hentry.
  - rewrite (run_not_identical d h Hid).
    rewrite (run_not_identical (with_schema_differences d (Array [])) h Hid).
    unfold arrays_left, entries. now rewrite Hentry.
Qed.

Lemma schema_entry_when_absent_witness :
  tables_identical Samples.no_schema_field = false
  /\ (schema_differences Samples.no_schema_field = Undefined
      \/ schema_differences Samples.no_schema_field = Null)
  /\ nth_error (@issues_of Browser.en_US_host Samples.no_schema_field []) 0
     = Some (EIssue
         {| icon := "fa-check"; text := "Schema identical"; type := "success" |}).
Proof.
  split; [reflexivity|]. split; [left; reflexivity|].
  exact (proj1 (schema_entry_when_absent
                  Browser.en_US_host Samples.no_schema_field []
                  eq_refl (or_introl eq_refl))).
Defined.

(** C4: in the non-identical case the row count entry is a danger one
    exactly when the two counts differ, and then it carries both formatted
    counts; when they are equal it is a success one carrying that count. *)
Theorem row_count_entry_by_equality
    (host : Host) (d : ComparisonResult) (h : heap) :
  tables_identical d = false ->
  exists e : Issue,
    nth_error (issues_of d h) 1 = Some (EIssue e)
    /\ (type e = "danger" <-> dev_row_count d <> prod_row_count d)
    /\ (dev_row_count d <> prod_row_count d ->
        text e = "Row count mismatch: DEV("
                 ++ toLocaleString (dev_row_count d) ++ ") vs PROD("
                 ++ toLocaleString (prod_row_count d) ++ ")")
    /\ (dev_row_count d = prod_row_count d ->
        type e = "success"
        /\ text e = "Row counts match ("
                    ++ toLocaleString (dev_row_count d) ++ ")").
Proof.
  intros Hid. exists (row_count_entry d).
  rewrite (issues_of_not_identical d h Hid).
  split; [reflexivity|]. unfold row_count_entry.
  destruct (Z.eqb_spec (dev_row_count d) (prod_row_count d)) as [Heq|Hne];
    cbn [negb type text].
  - split; [split; [discriminate | intros Hne; now elim Hne]|].
    split; [intros Hne; now elim Hne | intros _; split; reflexivity].
  - split; [split; [intros _; exact Hne | reflexivity]|].
    split; [reflexivity | intros Heq; now elim Hne].
Qed.

Lemma row_count_entry_by_equality_witness :
  tables_identical Samples.all_wrong = false
  /\ exists e : Issue,
       nth_error (@issues_of Browser.en_US_host Samples.all_wrong []) 1
       = Some (EIssue e)
       /\ text e = "Row count mismatch: DEV(4,998) vs PROD(5,000)".
Proof.
  split; [reflexivity|].
  destruct (row_count_entry_by_equality
              Browser.en_US_host Samples.all_wrong [] eq_refl)
    as (e & Hnth & _ & Htext & _).
  exists e. split; [exact Hnth|]. apply Htext. discriminate.
Defined.

(** For counts that are not negative, the tests [> 0] of the code select
    the categories that the specification calls non-zero. *)
Lemma gtb_is_nonzero (z : Z) : (0 <= z)%Z -> (z >? 0)%Z = negb (z =? 0)%Z.
Proof.
  intros Hz. destruct (Z.eqb_spec z 0) as [->|Hne]; [reflexivity|].
  apply Z.gtb_lt. lia.
Qed.

Lemma data_issues_nonzero_categories (s : Summary) :
  (0 <= total_differing s)%Z ->
  (0 <= total_missing_dev s)%Z ->
  (0 <= total_missing_prod s)%Z ->
  data_issues s = nonzero_categories s.
Proof.
  intros H1 H2 H3. unfold data_issues, nonzero_categories.
  rewrite (gtb_is_nonzero _ H1), (gtb_is_nonzero _ H2), (gtb_is_nonzero _ H3).
  cbn [filter fst].
  destruct (total_differing s =? 0)%Z, (total_missing_dev s =? 0)%Z,
    (total_missing_prod s =? 0)%Z; reflexivity.
Qed.

Lemma any_data_difference_all_zero (s : Summary) :
  (0 <= total_differing s)%Z ->
  (0 <= total_missing_dev s)%Z ->
  (0 <= total_missing_prod s)%Z ->
  any_data_difference s = false
  <-> total_differing s = 0%Z /\ total_missing_dev s = 0%Z
      /\ total_missing_prod s = 0%Z.
Proof.
  intros H1 H2 H3. unfold any_data_difference.
  rewrite (gtb_is_nonzero _ H1), (gtb_is_nonzero _ H2), (gtb_is_nonzero _ H3).
  destruct (Z.eqb_spec (total_differing s) 0), (Z.eqb_spec (total_missing_dev s) 0),
    (Z.eqb_spec (total_missing_prod s) 0); cbn [negb orb]; split;
    try discriminate; try tauto.
Qed.

(** C3, as the code has it: in the non-identical case, the counts of the
    summary not being negative, the data entry is a danger one whose text
    is the label "Data differences: " followed by the categories of
    non-zero count, each as its count and its label, in the order
    differing, missing from DEV, missing from PROD, joined by a comma and a
    space, unless the three counts are zero, when it is the success one
    reading "Compared data identical". For the counts 5, 0 and 2 the joined
    list is "5 differing, 2 missing from PROD" and the text of the entry is
    "Data differences: 5 differing, 2 missing from PROD". *)
Theorem data_entry_lists_nonzero_categories
    (host : Host) (d : ComparisonResult) (h : heap) :
  tables_identical d = false ->
  (0 <= total_differing (summary d))%Z ->
  (0 <= total_missing_dev (summary d))%Z ->
  (0 <= total_missing_prod (summary d))%Z ->
  (~ (total_differing (summary d) = 0%Z /\ total_missing_dev (summary d) = 0%Z
      /\ total_missing_prod (summary d) = 0%Z) ->
   nth_error (issues_of d h) 2
   = Some (EIssue
       {| icon := "fa-exclamation-triangle";
          text := "Data differences: "
                  ++ join ", " (nonzero_categories (summary d));
          type := "danger" |}))
  /\ (total_differing (summary d) = 0%Z /\ total_missing_dev (summary d) = 0%Z
      /\ total_missing_prod (summary d) = 0%Z ->
      nth_error (issues_of d h) 2
      = Some (EIssue
          {| icon := "fa-check"; text := "Compared data identical";
             type := "success" |}))
  /\ (total_differing (summary d) = 5%Z -> total_missing_dev (summary d) = 0%Z ->
      total_missing_prod (summary d) = 2%Z ->
      join ", " (nonzero_categories (summary d))
      = "5 differing, 2 missing from PROD"
      /\ nth_error (issues_of d h) 2
         = Some (EIssue
             {| icon := "fa-exclamation-triangle";
                text := "Data differences: 5 differing, 2 missing from PROD";
                type := "danger" |})).
Proof.
  intros Hid H1 H2 H3. rewrite (issues_of_not_identical d h Hid).
  unfold entries. cbn [nth_error]. unfold data_entry.
  rewrite (data_issues_nonzero_categories _ H1 H2 H3).
  pose proof (any_data_difference_all_zero _ H1 H2 H3) as Hany.
  split; [|split].
  - intros Hsome. destruct (any_data_difference (summary d)); [reflexivity|].
    elim Hsome. now apply Hany.
  - intros Hzero. now rewrite (proj2 Hany Hzero).
  - intros E1 E2 E3.
    assert (Hn : nonzero_categories (summary d)
                 = ["5 differing"; "2 missing from PROD"]).
    { unfold nonzero_categories. now rewrite E1, E2, E3. }
    rewrite Hn. split; [reflexivity|].
    destruct (any_data_difference (summary d)); [reflexivity|].
    destruct (proj1 Hany eq_refl) as (Ha & _). rewrite E1 in Ha. discriminate.
Qed.

Lemma data_entry_lists_nonzero_categories_witness :
  tables_identical Samples.all_wrong = false
  /\ (0 <= total_differing (summary Samples.all_wrong))%Z
  /\ (0 <= total_missing_dev (summary Samples.all_wrong))%Z
  /\ (0 <= total_missing_prod (summary Samples.all_wrong))%Z
  /\ join ", " (nonzero_categories (summary Samples.all_wrong))
     = "5 differing, 2 missing from PROD"
  /\ nth_error (@issues_of Browser.en_US_host Samples.all_wrong []) 2
     = Some (EIssue
         {| icon := "fa-exclamation-triangle";
            text := "Data differences: 5 differing, 2 missing from PROD";
            type := "danger" |}).
Proof.
  split; [reflexivity|].
  assert (H1 : (0 <= total_differing (summary Samples.all_wrong))%Z)
    by (simpl; lia).
  assert (H2 : (0 <= total_missing_dev (summary Samples.all_wrong))%Z)
    by (simpl; lia).
  assert (H3 : (0 <= total_missing_prod (summary Samples.all_wrong))%Z)
    by (simpl; lia).
  split; [exact H1|]. split; [exact H2|]. split; [exact H3|].
  exact (proj2 (proj2 (data_entry_lists_nonzero_categories
                         Browser.en_US_host Samples.all_wrong []
                         eq_refl H1 H2 H3))
           eq_refl eq_refl eq_refl).
Defined.

(** C3, as it was worded: for the counts 5, 0 and 2 the message of the data
    entry is not "5 differing, 2 missing from PROD": the label comes first. *)
Lemma data_entry_text_has_label :
  tables_identical Samples.all_wrong = false
  /\ summary Samples.all_wrong
     = {| total_differing := 5; total_missing_dev := 0; total_missing_prod := 2 |}
  /\ exists e : Issue,
       nth_error (@issues_of Browser.en_US_host Samples.all_wrong []) 2
       = Some (EIssue e)
       /\ text e = "Data differences: 5 differing, 2 missing from PROD"
       /\ text e <> "5 differing, 2 missing from PROD".
Proof.
  split; [reflexivity|]. split; [reflexivity|].
  eexists. split; [reflexivity|]. split; [reflexivity | discriminate].
Qed.

(** C6: in the non-identical case the coverage entry is a warning one
    reading "Limited analysis: ", the phrase of [getSamplingMethodText] for
    the sampling method, the formatted [max_rows_setting] and " rows" when
    [was_limited] is true, and the success one reading "Complete table
    analysis" when it is false. *)
Theorem coverage_entry_by_limit
    (host : Host) (d : ComparisonResult) (h : heap) :
  tables_identical d = false ->
  (was_limited d = true ->
   nth_error (issues_of d h) 3
   = Some (EIssue
       {| icon := "fa-info-circle";
          text := "Limited analysis: "
                  ++ to_string (getSamplingMethodText (sampling_method d))
                  ++ " " ++ toLocaleString (max_rows_setting d) ++ " rows";
          type := "warning" |}))
  /\ (was_limited d = false ->
      nth_error (issues_of d h) 3
      = Some (EIssue
          {| icon := "fa-check"; text := "Complete table analysis";
             type := "success" |})).
Proof.
  intros Hid. rewrite (issues_of_not_identical d h Hid).
  unfold entries, coverage_entry. cbn [nth_error].
  split; intros ->; reflexivity.
Qed.

Lemma coverage_entry_by_limit_witness :
  tables_identical Samples.all_wrong = false
  /\ nth_error (@issues_of Browser.en_US_host Samples.all_wrong []) 3
     = Some (EIssue
         {| icon := "fa-info-circle";
            text := "Limited analysis: random sample of 5,000 rows";
            type := "warning" |}).
Proof.
  split; [reflexivity|].
  exact (proj1 (coverage_entry_by_limit
                  Browser.en_US_host Samples.all_wrong [] eq_refl) eq_refl).
Defined.

(** ** No state between calls *)

(** C9: the header class is a function of [tables_identical] alone: two
    results that agree on it get the same class, whatever their other
    fields hold. *)
Theorem status_class_depends_on_flag_only (d1 d2 : ComparisonResult) :
  tables_identical d1 = tables_identical d2 ->
  getComparisonStatusClass d1 = getComparisonStatusClass d2.
Proof.
  intros Hflag. unfold getComparisonStatusClass. now rewrite Hflag.
Qed.

Lemma status_class_depends_on_flag_only_witness :
  tables_identical Samples.schema_drift = tables_identical Samples.all_wrong
  /\ Samples.schema_drift <> Samples.all_wrong
  /\ getComparisonStatusClass Samples.schema_drift
     = getComparisonStatusClass Samples.all_wrong.
Proof.
  split; [reflexivity|]. split; [discriminate|].
  exact (status_class_depends_on_flag_only
           Samples.schema_drift Samples.all_wrong eq_refl).
Defined.

(** C8: a call reads nothing but its argument. Started on any two heaps,
    whatever arrays earlier calls left there, it returns the same markup
    and builds the same [issues]; it only adds arrays of its own after
    those that were there, which it leaves as they were; so a second call
    on the same result, made after the first, returns what the first did. *)
Theorem status_message_stateless
    (host : Host) (d : ComparisonResult) (h1 h2 : heap) :
  message_of d h1 = message_of d h2
  /\ issues_of d h1 = issues_of d h2
  /\ (exists fresh : heap, snd (getDetailedStatusMessage d h1) = (h1 ++ fresh)%list)
  /\ message_of d (snd (getDetailedStatusMessage d h1)) = message_of d h1.
Proof.
  unfold message_of. destruct (tables_identical d) eqn:Hid.
  - unfold issues_of. rewrite !(run_identical d _ Hid). cbn [fst snd].
    split; [reflexivity|].
    split; [now rewrite !nth_overflow by apply Nat.le_refl|].
    split; [exists []; now rewrite app_nil_r | reflexivity].
  - rewrite !(issues_of_not_identical d _ Hid).
    rewrite !(run_not_identical d _ Hid). cbn [fst snd].
    split; [reflexivity|]. split; [reflexivity|].
    split; [now exists (arrays_left d) | reflexivity].
Qed.

(** ** The samples, run in an en-US browser *)

Example en_US_groups :
  map Browser.en_US [0; 999; 1000; 5000; 1234567; -4321]%Z
  = ["0"; "999"; "1,000"; "5,000"; "1,234,567"; "-4,321"].
Proof. reflexivity. Qed.

Example schema_drift_entries :
  map (fun e => (to_string (host := Browser.en_US_host) (field type e),
                 to_string (host := Browser.en_US_host) (field text e)))
    (@issues_of Browser.en_US_host Samples.schema_drift [])
  = [ ("danger", "Schema differences (2)");
      ("success", "Row counts match (1,000)");
      ("success", "Compared data identical");
      ("success", "Complete table analysis") ].
Proof. reflexivity. Qed.

Example all_wrong_arrays :
  map (map elem_to_string)
    (firstn 2 (snd (@getDetailedStatusMessage Browser.en_US_host Samples.all_wrong [])))
  = [ ["[object Object]"; "[object Object]"; "[object Object]"; "[object Object]"];
      ["5 differing"; "2 missing from PROD"] ].
Proof. reflexivity. Qed.

Example unknown_method_falls_back :
  @getSamplingMethodText Browser.en_US_host (VStr "BOGUS") = VStr "first".
Proof. reflexivity. Qed.

Example rendered_entry :
  @render_issue Browser.en_US_host
    (EIssue {| icon := "fa-check"; text := "Schema identical"; type := "success" |})
  = "<div class=" ++ dq ++ "d-flex align-items-center mb-2" ++ dq ++ ">" ++ nl
    ++ sp 16 ++ "<i class=" ++ dq ++ "fas fa-check me-2 text-success" ++ dq
    ++ "></i>" ++ nl
    ++ sp 16 ++ "<span class=" ++ dq ++ "text-success" ++ dq
    ++ ">Schema identical</span>" ++ nl
    ++ sp 12 ++ "</div>".
Proof. reflexivity. Qed.

(** * Further properties *)

(** ** The sampling phrase, again *)

(** X1: [getSamplingMethodText] answers a string exactly when the key is
    one of the three of its table or a name unknown to [Object.prototype];
    the string is then one of the three phrases, never the empty one. *)
Theorem getSamplingMethodText_string_iff (host : Host) (method : value) :
  ((exists s, getSamplingMethodText method = VStr s)
   <-> (In (to_string method) ["LAST_N"; "RANDOM"; "TOP_N"]
        \/ object_prototype_get (to_string method) = VUndefined))
  /\ (forall s, getSamplingMethodText method = VStr s ->
      In s ["most recent"; "random sample of"; "first"]).
Proof.
  unfold getSamplingMethodText, get_property. cbn [own_property].
  destruct (String.eqb_spec "LAST_N" (to_string method)) as [E1|N1].
  { split; [split; [intros _; left; left; exact E1 | intros _; now eexists]|].
    intros s [= <-]. now left. }
  destruct (String.eqb_spec "RANDOM" (to_string method)) as [E2|N2].
  { split; [split; [intros _; left; right; left; exact E2 | intros _; now eexists]|].
    intros s [= <-]. right; now left. }
  destruct (String.eqb_spec "TOP_N" (to_string method)) as [E3|N3].
  { split; [split; [intros _; left; right; right; left; exact E3
                   | intros _; now eexists]|].
    intros s [= <-]. right; right; now left. }
  assert (Hown : ~ In (to_string method) ["LAST_N"; "RANDOM"; "TOP_N"]).
  { intros [H|[H|[H|[]]]]; congruence. }
  unfold object_prototype_get.
  destruct (String.eqb (to_string method) "constructor").
  { split; [split; [intros (s & [=]) | intros [H|[=]]; now elim Hown]|].
    intros s [=]. }
  destruct (String.eqb (to_string method) "__proto__").
  { split; [split; [intros (s & [=]) | intros [H|[=]]; now elim Hown]|].
    intros s [=]. }
  destruct (existsb (String.eqb (to_string method)) object_prototype_methods).
  { split; [split; [intros (s & [=]) | intros [H|[=]]; now elim Hown]|].
    intros s [=]. }
  split; [split; [intros _; now right | intros _; now eexists]|].
  intros s [= <-]. right; right; now left.
Qed.

(** ** More on the status message *)

(** X2: in every entry pushed the icon goes with the type: a danger entry
    has the triangle, a success entry the check mark, a warning entry the
    info circle, and there is no other type. *)
Theorem issue_icon_follows_type
    (host : Host) (d : ComparisonResult) (h : heap) :
  Forall
    (fun x => exists e : Issue,
       x = EIssue e
       /\ ((type e = "danger" /\ icon e = "fa-exclamation-triangle")
           \/ (type e = "success" /\ icon e = "fa-check")
           \/ (type e = "warning" /\ icon e = "fa-info-circle")))
    (issues_of d h).
Proof.
  destruct (tables_identical d) eqn:Hid.
  - unfold issues_of. rewrite (run_identical d h Hid). cbn [snd].
    rewrite nth_overflow by apply Nat.le_refl. constructor.
  - rewrite (issues_of_not_identical d h Hid). unfold entries.
    repeat constructor; eexists; (split; [reflexivity|]).
    + unfold schema_entry. destruct (schema_differences d) as [| |diffs];
        [right; left; now split | right; left; now split |].
      destruct (Z.of_nat (List.length diffs) >? 0)%Z;
        [left | right; left]; now split.
    + unfold row_count_entry.
      destruct (negb (dev_row_count d =? prod_row_count d)%Z);
        [left | right; left]; now split.
    + unfold data_entry. destruct (any_data_difference (summary d));
        [left | right; left]; now split.
    + unfold coverage_entry. destruct (was_limited d);
        [right; right | right; left]; now split.
Qed.

(** X3: the panel of the identical case shows [dev_row_count] and nothing
    else of the result: two results flagged identical with the same
    [dev_row_count] get the same markup, whatever their schema differences,
    their [prod_row_count], their summary and their sampling say. *)
Theorem identical_panel_reads_dev_row_count_only
    (host : Host) (d1 d2 : ComparisonResult) (h : heap) :
  tables_identical d1 = true ->
  tables_identical d2 = true ->
  dev_row_count d1 = dev_row_count d2 ->
  getDetailedStatusMessage d1 h = getDetailedStatusMessage d2 h
  /\ getComparisonStatusClass d1 = getComparisonStatusClass d2.
Proof.
  intros H1 H2 Hrows.
  rewrite (run_identical d1 h H1), (run_identical d2 h H2), Hrows.
  unfold getComparisonStatusClass. now rewrite H1, H2.
Qed.

Lemma identical_panel_reads_dev_row_count_only_witness :
  tables_identical Samples.agreeing = true
  /\ tables_identical MoreSamples.flagged_identical = true
  /\ dev_row_count Samples.agreeing = dev_row_count MoreSamples.flagged_identical
  /\ Samples.agreeing <> MoreSamples.flagged_identical
  /\ @getDetailedStatusMessage Browser.en_US_host Samples.agreeing []
     = @getDetailedStatusMessage Browser.en_US_host MoreSamples.flagged_identical [].
Proof.
  split; [reflexivity|]. split; [reflexivity|]. split; [reflexivity|].
  split; [discriminate|].
  exact (proj1 (identical_panel_reads_dev_row_count_only
                  Browser.en_US_host Samples.agreeing
                  MoreSamples.flagged_identical [] eq_refl eq_refl eq_refl)).
Defined.

Lemma any_data_difference_not_positive (s : Summary) :
  (total_differing s <= 0)%Z ->
  (total_missing_dev s <= 0)%Z ->
  (total_missing_prod s <= 0)%Z ->
  any_data_difference s = false.
Proof.
  intros H1 H2 H3. unfold any_data_difference.
  assert (G : forall z, (z <= 0)%Z -> (z >? 0)%Z = false).
  { intros z Hz. destruct (z >? 0)%Z eqn:E; [apply Z.gtb_lt in E; lia | reflexivity]. }
  now rewrite (G _ H1), (G _ H2), (G _ H3).
Qed.

(** X4: the data check tests [> 0], so a count below zero weighs what zero
    does: in the non-identical case, when none of the three counts is
    positive the data entry is the success one, negative counts or not. *)
Theorem data_entry_ignores_negative_counts
    (host : Host) (d : ComparisonResult) (h : heap) :
  tables_identical d = false ->
  (total_differing (summary d) <= 0)%Z ->
  (total_missing_dev (summary d) <= 0)%Z ->
  (total_missing_prod (summary d) <= 0)%Z ->
  nth_error (issues_of d h) 2
  = Some (EIssue
      {| icon := "fa-check"; text := "Compared data identical";
         type := "success" |}).
Proof.
  intros Hid H1 H2 H3. rewrite (issues_of_not_identical d h Hid).
  unfold entries, data_entry. cbn [nth_error].
  now rewrite (any_data_difference_not_positive _ H1 H2 H3).
Qed.

Lemma data_entry_ignores_negative_counts_witness :
  tables_identical MoreSamples.negative_counts = false
  /\ total_differing (summary MoreSamples.negative_counts) = (-3)%Z
  /\ nth_error (@issues_of Browser.en_US_host MoreSamples.negative_counts []) 2
     = Some (EIssue
         {| icon := "fa-check"; text := "Compared data identical";
            type := "success" |}).
Proof.
  split; [reflexivity|]. split; [reflexivity|].
  apply (data_entry_ignores_negative_counts
           Browser.en_US_host MoreSamples.negative_counts [] eq_refl);
    simpl; lia.
Defined.

(** ** Loading states *)

Section LoadingFacts.
Import Loading.
Context {host : Host}.

(** The markup of the loading state is never empty. *)
Lemma loading_markup_not_empty (icon text : value) :
  loading_markup icon text <> EmptyString.
Proof. unfold loading_markup. rewrite template_cons. discriminate. Qed.

(** What [hideModernLoading] makes of an element in the loading state. *)
Lemma hide_after_show (el : Element) (text icon : value) :
  innerHTML el <> EmptyString ->
  hideModernLoading (showModernLoading (Some el) text icon)
  = Some {| innerHTML := innerHTML el;
            dataset_originalContent := None;
            disabled := false;
            style_transition := "all 0.3s ease";
            style_transform := "scale(1)";
            style_boxShadow := EmptyString |}.
Proof.
  intros Hne. unfold showModernLoading, hideModernLoading.
  destruct (is_string (default_to (VStr "fa-spinner") icon) "fa-spinner");
    unfold get_originalContent; cbn -[loading_markup String.eqb];
    (destruct (String.eqb_spec (innerHTML el) EmptyString) as [E|_];
     [now elim Hne | reflexivity]).
Qed.

End LoadingFacts.

(** X5: a loading state put on an element with content and taken off again
    gives the content back, whatever the text and the icon; the element
    comes out enabled and without box shadow whether or not it was disabled
    or had a shadow before, and keeps the transition set for the loading. *)
Theorem hide_after_show_restores_content
    (host : Host) (el : Loading.Element) (text icon : value) :
  Loading.innerHTML el <> EmptyString ->
  Loading.hideModernLoading (Loading.showModernLoading (Some el) text icon)
  = Some {| Loading.innerHTML := Loading.innerHTML el;
            Loading.dataset_originalContent := None;
            Loading.disabled := false;
            Loading.style_transition := "all 0.3s ease";
            Loading.style_transform := "scale(1)";
            Loading.style_boxShadow := EmptyString |}.
Proof. apply hide_after_show. Qed.

Lemma hide_after_show_restores_content_witness :
  Loading.innerHTML MoreSamples.compare_button <> EmptyString
  /\ option_map Loading.innerHTML
       (@Loading.hideModernLoading Browser.en_US_host
          (@Loading.showModernLoading Browser.en_US_host
             (Some MoreSamples.compare_button) VUndefined VUndefined))
     = Some "Compare tables".
Proof.
  split; [discriminate|].
  rewrite (hide_after_show_restores_content Browser.en_US_host
             MoreSamples.compare_button VUndefined VUndefined);
    [reflexivity | discriminate].
Defined.

(** X6: an element without content cannot leave the loading state: the
    empty string saved for it counts as nothing saved, so
    [hideModernLoading] changes nothing and the element stays disabled,
    showing the spinner. *)
Theorem empty_element_stays_loading
    (host : Host) (el : Loading.Element) (text icon : value) :
  Loading.innerHTML el = EmptyString ->
  Loading.hideModernLoading (Loading.showModernLoading (Some el) text icon)
  = Loading.showModernLoading (Some el) text icon
  /\ option_map Loading.disabled (Loading.showModernLoading (Some el) text icon)
     = Some true.
Proof.
  intros Hempty. unfold Loading.showModernLoading, Loading.hideModernLoading.
  destruct (Loading.is_string
              (Loading.default_to (VStr "fa-spinner") icon) "fa-spinner");
    unfold Loading.get_originalContent;
    cbn -[Loading.loading_markup String.eqb]; rewrite Hempty; now split.
Qed.

Lemma empty_element_stays_loading_witness :
  Loading.innerHTML MoreSamples.empty_panel = EmptyString
  /\ option_map Loading.disabled
       (@Loading.hideModernLoading Browser.en_US_host
          (@Loading.showModernLoading Browser.en_US_host
             (Some MoreSamples.empty_panel) (VStr "Comparing...") VUndefined))
     = Some true.
Proof.
  split; [reflexivity|].
  destruct (empty_element_stays_loading Browser.en_US_host
              MoreSamples.empty_panel (VStr "Comparing...") VUndefined eq_refl)
    as (Hsame & Hdisabled).
  rewrite Hsame. exact Hdisabled.
Defined.

(** X7: a loading state put on an element already loading saves the first
    spinner as the content: taking it off brings the markup of the first
    call back, not the content the element had, and nothing is left to
    bring that back. *)
Theorem second_show_saves_the_spinner
    (host : Host) (el : Loading.Element) (text1 icon1 text2 icon2 : value) :
  exists shown restored : Loading.Element,
    Loading.showModernLoading (Some el) text1 icon1 = Some shown
    /\ Loading.hideModernLoading
         (Loading.showModernLoading (Some shown) text2 icon2) = Some restored
    /\ Loading.innerHTML restored = Loading.innerHTML shown
    /\ Loading.innerHTML restored
       = Loading.loading_markup
           (Loading.default_to (VStr "fa-spinner") icon1)
           (Loading.default_to (VStr "Processing...") text1)
    /\ Loading.dataset_originalContent restored = None
    /\ Loading.hideModernLoading (Some restored) = Some restored.
Proof.
  destruct (Loading.showModernLoading (Some el) text1 icon1) as [shown|] eqn:Hshow;
    [|discriminate Hshow].
  assert (Hmarkup : Loading.innerHTML shown
                    = Loading.loading_markup
                        (Loading.default_to (VStr "fa-spinner") icon1)
                        (Loading.default_to (VStr "Processing...") text1)).
  { unfold Loading.showModernLoading in Hshow.
    destruct (Loading.is_string
                (Loading.default_to (VStr "fa-spinner") icon1) "fa-spinner");
      injection Hshow as <-; reflexivity. }
  eexists shown, _. split; [reflexivity|].
  split.
  { apply hide_after_show. rewrite Hmarkup. apply loading_markup_not_empty. }
  cbn [Loading.innerHTML Loading.dataset_originalContent].
  split; [reflexivity|]. split; [exact Hmarkup|]. split; reflexivity.
Qed.

(** ** Status messages on the page *)

Section AlertFacts.
Import Alerts.

Lemma pick_one (t : Z * Task) : pick [t] = Some (t, []).
Proof. reflexivity. Qed.

Lemma pick_two (t u : Z * Task) :
  pick [t; u]
  = if (fst t <=? fst u)%Z then Some (t, [u]) else Some (u, [t]).
Proof. reflexivity. Qed.

Lemma run_fire (fuel : nat) (limit : Z) (w : Page)
    (due : Z) (task : Task) (others : list (Z * Task)) :
  pick (timers w) = Some ((due, task), others) ->
  (due <= limit)%Z ->
  run (S fuel) limit w
  = run fuel limit
      (run_task task (set_now (Z.max (now w) due) (set_timers others w))).
Proof.
  intros Hpick Hdue. cbn [run]. rewrite Hpick.
  now rewrite (proj2 (Z.leb_le _ _) Hdue).
Qed.

Lemma run_early (fuel : nat) (limit : Z) (w : Page)
    (due : Z) (task : Task) (others : list (Z * Task)) :
  pick (timers w) = Some ((due, task), others) ->
  (limit < due)%Z ->
  run fuel limit w = w.
Proof.
  intros Hpick Hdue. destruct fuel as [|fuel]; [reflexivity|].
  cbn [run]. rewrite Hpick.
  now rewrite (proj2 (Z.leb_gt _ _) Hdue).
Qed.

Lemma run_idle (fuel : nat) (limit : Z) (w : Page) :
  timers w = [] -> run fuel limit w = w.
Proof.
  intros Hnone. destruct fuel as [|fuel]; [reflexivity|].
  cbn [run]. now rewrite Hnone.
Qed.

(** Removing an element that is not there removes nothing. *)
Lemma filter_other_id (id : nat) (alerts : list AlertElement) :
  Forall (fun a => alert_id a < id) alerts ->
  filter (fun a => negb (Nat.eqb (alert_id a) id)) alerts = alerts.
Proof.
  induction 1 as [|a alerts Ha _ IH]; [reflexivity|].
  cbn [filter]. rewrite IH.
  destruct (Nat.eqb_spec (alert_id a) id) as [E|_]; [lia | reflexivity].
Qed.

(** *** The pending timeouts always get their turn *)

Lemma pick_none (ts : list (Z * Task)) : pick ts = None -> ts = [].
Proof.
  destruct ts as [|t rest]; [reflexivity|]. cbn [pick].
  destruct (pick rest) as [[m others]|]; [|discriminate].
  destruct (fst t <=? fst m)%Z; discriminate.
Qed.

Lemma weight_cons (t : Z * Task) (ts : list (Z * Task)) :
  weight (t :: ts) = weight [t] + weight ts.
Proof. unfold weight. simpl. lia. Qed.

Lemma pick_some (ts : list (Z * Task)) (m : Z * Task) (others : list (Z * Task)) :
  pick ts = Some (m, others) ->
  weight ts = weight [m] + weight others
  /\ List.length ts = S (List.length others)
  /\ Forall (fun t => (fst m <= fst t)%Z) ts.
Proof.
  revert m others. induction ts as [|t rest IH]; intros m others; [discriminate|].
  cbn [pick]. destruct (pick rest) as [[m' others']|] eqn:Hrest.
  - destruct (IH _ _ eq_refl) as (Hw & Hl & Hall).
    destruct (Z.leb_spec (fst t) (fst m')) as [Hle|Hgt]; intros [= <- <-].
    + split; [apply weight_cons|]. split; [reflexivity|].
      constructor; [lia|].
      eapply Forall_impl; [|exact Hall]. cbn beta. intros; lia.
    + rewrite (weight_cons t rest), (weight_cons t others'). cbn [List.length].
      split; [lia|]. split; [lia|].
      constructor; [lia | exact Hall].
  - apply pick_none in Hrest. subst rest. intros [= <- <-].
    split; [apply weight_cons|]. split; [reflexivity|].
    constructor; [lia | constructor].
Qed.

Lemma weight_app (ts us : list (Z * Task)) :
  weight (ts ++ us) = weight ts + weight us.
Proof. unfold weight. now rewrite map_app, list_sum_app. Qed.

Lemma run_task_weight (task : Task) (w : Page) :
  weight (timers (run_task task w)) + 1
  <= weight (timers w) + weight [(0%Z, task)].
Proof.
  destruct task as [|id]; cbn [run_task].
  - destruct (main_alerts w) as [[|a rest]|];
      unfold setTimeout; cbn [timers set_timers set_main_alerts];
      rewrite ?weight_app; unfold weight; simpl; lia.
  - destruct (main_alerts w); cbn [timers set_main_alerts];
      unfold weight; simpl; lia.
Qed.

(** With fuel for every pending timeout, [run] stops only when nothing is
    due by the limit any more. *)
Lemma run_settles (fuel : nat) (limit : Z) (w : Page) :
  weight (timers w) <= fuel ->
  Forall (fun t => (limit < fst t)%Z) (timers (run fuel limit w)).
Proof.
  revert w. induction fuel as [|fuel IH]; intros w Hfuel.
  - cbn [run]. destruct (timers w) as [|[due [|id]] rest]; [constructor| |];
      unfold weight in Hfuel; cbn in Hfuel; lia.
  - cbn [run]. destruct (pick (timers w)) as [[[due task] others]|] eqn:Hpick.
    + destruct (pick_some _ _ _ Hpick) as (Hw & _ & Hall).
      destruct (Z.leb_spec due limit) as [Hle|Hgt].
      * apply IH.
        pose proof (run_task_weight task
                      (set_now (Z.max (now w) due) (set_timers others w))) as Hstep.
        cbn [timers set_now set_timers] in Hstep.
        assert (Hsame : weight [(0%Z, task)] = weight [(due, task)]) by reflexivity.
        lia.
      * eapply Forall_impl; [|exact Hall]. cbn. intros; lia.
    + apply pick_none in Hpick. rewrite Hpick. constructor.
Qed.

Lemma weight_le_twice (ts : list (Z * Task)) : weight ts <= 2 * List.length ts.
Proof.
  induction ts as [|[due task] ts IH]; [unfold weight; simpl; lia|].
  rewrite weight_cons. cbn [List.length].
  assert (weight [(due, task)] <= 2) by (destruct task; unfold weight; simpl; lia).
  lia.
Qed.

Lemma wait_until_settles (limit : Z) (w : Page) :
  Forall (fun t => (limit < fst t)%Z) (timers (wait_until limit w)).
Proof.
  unfold wait_until. cbn [timers set_now].
  apply run_settles, weight_le_twice.
Qed.

End AlertFacts.

Section MessageFacts.
Import Alerts.
Context {host : Host}.

(** [showStatusMessage] on a page with a container. *)
Lemma showStatusMessage_run
    (message type : value) (duration : option Z) (w : Page)
    (alerts : list AlertElement) :
  main_alerts w = Some alerts ->
  showStatusMessage message type duration w
  = let d := match duration with Some d => d | None => 5000%Z end in
    {| main_alerts := Some (new_alert message type (next_id w) :: alerts);
       timers := if (d >? 0)%Z
                 then (timers w ++ [((now w + d)%Z, Dismiss)])%list
                 else timers w;
       now := now w;
       next_id := S (next_id w) |}.
Proof.
  intros Hmain. unfold showStatusMessage, insert_afterbegin. rewrite Hmain.
  cbv zeta.
  destruct (match duration with Some d => d | None => 5000%Z end >? 0)%Z;
    reflexivity.
Qed.

Lemma message_in_alert_html (message type : value) :
  contains (to_string message) (alert_html message type).
Proof.
  unfold alert_html. apply (contains_fragments 8 1).
Qed.

End MessageFacts.

(** One step of [run] on a page whose next timeout is plain to see. *)
Ltac fire_timer :=
  erewrite run_fire;
  [ | cbn [Alerts.timers]; reflexivity
    | cbn [Alerts.now Alerts.set_now Alerts.set_timers Alerts.set_main_alerts];
      lia ].

(** The same steps on a page written out. *)
Lemma run_fire_page (fuel : nat) (limit : Z)
    (main : option (list Alerts.AlertElement)) (ts : list (Z * Alerts.Task))
    (n : Z) (k : nat) (due : Z) (task : Alerts.Task)
    (others : list (Z * Alerts.Task)) :
  Alerts.pick ts = Some ((due, task), others) ->
  (due <= limit)%Z ->
  Alerts.run (S fuel) limit
    {| Alerts.main_alerts := main; Alerts.timers := ts; Alerts.now := n;
       Alerts.next_id := k |}
  = Alerts.run fuel limit
      (Alerts.run_task task
         {| Alerts.main_alerts := main; Alerts.timers := others;
            Alerts.now := Z.max n due; Alerts.next_id := k |}).
Proof.
  intros Hpick Hdue. cbn [Alerts.run Alerts.timers]. rewrite Hpick.
  now rewrite (proj2 (Z.leb_le _ _) Hdue).
Qed.

Lemma run_task_dismiss
    (a : Alerts.AlertElement) (rest : list Alerts.AlertElement)
    (ts : list (Z * Alerts.Task)) (n : Z) (k : nat) :
  Alerts.run_task Alerts.Dismiss
    {| Alerts.main_alerts := Some (a :: rest); Alerts.timers := ts;
       Alerts.now := n; Alerts.next_id := k |}
  = {| Alerts.main_alerts :=
         Some ({| Alerts.alert_id := Alerts.alert_id a;
                  Alerts.markup := Alerts.markup a;
                  Alerts.style_opacity := "0";
                  Alerts.style_transform := "translateY(-20px)" |} :: rest);
       Alerts.timers := (ts ++ [((n + 300)%Z, Alerts.Remove (Alerts.alert_id a))])%list;
       Alerts.now := n; Alerts.next_id := k |}.
Proof. reflexivity. Qed.

Lemma run_task_remove
    (id : nat) (alerts : list Alerts.AlertElement)
    (ts : list (Z * Alerts.Task)) (n : Z) (k : nat) :
  Alerts.run_task (Alerts.Remove id)
    {| Alerts.main_alerts := Some alerts; Alerts.timers := ts;
       Alerts.now := n; Alerts.next_id := k |}
  = {| Alerts.main_alerts :=
         Some (filter (fun a => negb (Nat.eqb (Alerts.alert_id a) id)) alerts);
       Alerts.timers := ts; Alerts.now := n; Alerts.next_id := k |}.
Proof. reflexivity. Qed.

Lemma pick_two_first (t u : Z * Alerts.Task) :
  (fst t <= fst u)%Z -> Alerts.pick [t; u] = Some (t, [u]).
Proof.
  intros Hle. rewrite pick_two. now rewrite (proj2 (Z.leb_le _ _) Hle).
Qed.

Ltac fire_page :=
  erewrite run_fire_page;
  [ | first [apply pick_one | apply pick_two_first; cbn [fst]; lia] | lia ].

Ltac early_timer :=
  erewrite run_early;
  [ | cbn [Alerts.timers]; reflexivity
    | cbn [Alerts.now Alerts.set_now Alerts.set_timers Alerts.set_main_alerts];
      lia ].

(** The three stages of a message on a quiet page. *)
Lemma message_lifecycle
    (host : Host) (message type : value) (d : Z) (w : Alerts.Page)
    (alerts : list Alerts.AlertElement) (t : Z) :
  Alerts.main_alerts w = Some alerts ->
  Alerts.timers w = [] ->
  Forall (fun a => Alerts.alert_id a < Alerts.next_id w) alerts ->
  (0 < d)%Z ->
  (Alerts.now w <= t)%Z ->
  let shown := Alerts.showStatusMessage message type (Some d) w in
  ((t < Alerts.now w + d)%Z ->
   Alerts.main_alerts (Alerts.wait_until t shown)
   = Some (Alerts.new_alert message type (Alerts.next_id w) :: alerts))
  /\ ((Alerts.now w + d <= t < Alerts.now w + d + 300)%Z ->
      Alerts.main_alerts (Alerts.wait_until t shown)
      = Some (Alerts.faded_alert message type (Alerts.next_id w) :: alerts))
  /\ ((Alerts.now w + d + 300 <= t)%Z ->
      Alerts.main_alerts (Alerts.wait_until t shown) = Some alerts
      /\ Alerts.timers (Alerts.wait_until t shown) = []).
Proof.
  intros Hmain Htimers Hids Hd Ht shown. subst shown.
  rewrite (showStatusMessage_run message type (Some d) w alerts Hmain).
  cbv zeta. rewrite (proj2 (Z.gtb_lt d 0) Hd), Htimers. cbn [List.app].
  unfold Alerts.wait_until. cbn [Alerts.timers List.length Nat.mul Nat.add].
  split; [|split].
  - intros Hbefore.
    early_timer.
    reflexivity.
  - intros Hfading.
    fire_timer.
    cbn [Alerts.run_task Alerts.set_now Alerts.set_timers Alerts.set_main_alerts
         Alerts.main_alerts Alerts.timers Alerts.now Alerts.next_id].
    unfold Alerts.setTimeout.
    cbn [Alerts.set_timers Alerts.set_main_alerts Alerts.main_alerts
         Alerts.timers Alerts.now Alerts.next_id List.app].
    early_timer.
    reflexivity.
  - intros Hafter.
    fire_timer.
    cbn [Alerts.run_task Alerts.set_now Alerts.set_timers Alerts.set_main_alerts
         Alerts.main_alerts Alerts.timers Alerts.now Alerts.next_id].
    unfold Alerts.setTimeout.
    cbn [Alerts.set_timers Alerts.set_main_alerts Alerts.main_alerts
         Alerts.timers Alerts.now Alerts.next_id List.app].
    fire_timer.
    cbn [Alerts.run Alerts.run_task Alerts.set_now Alerts.set_timers
         Alerts.set_main_alerts Alerts.main_alerts Alerts.timers Alerts.now
         Alerts.next_id filter Alerts.alert_id Alerts.new_alert].
    rewrite Nat.eqb_refl. cbn [negb].
    now rewrite (filter_other_id _ _ Hids).
Qed.

(** X8: a message shown on a page that has a container and no pending
    timeout comes and goes: until its duration is over its alert stands
    first in the container as it was made, for the next 300 ms it stands
    there faded, and after that it is gone, the container holds the alerts
    it held before and no timeout is left. *)
Theorem status_message_comes_and_goes
    (host : Host) (message type : value) (d : Z) (w : Alerts.Page)
    (alerts : list Alerts.AlertElement) (t : Z) :
  Alerts.main_alerts w = Some alerts ->
  Alerts.timers w = [] ->
  Forall (fun a => Alerts.alert_id a < Alerts.next_id w) alerts ->
  (0 < d)%Z ->
  (Alerts.now w <= t)%Z ->
  let shown := Alerts.showStatusMessage message type (Some d) w in
  ((t < Alerts.now w + d)%Z ->
   Alerts.main_alerts (Alerts.wait_until t shown)
   = Some (Alerts.new_alert message type (Alerts.next_id w) :: alerts))
  /\ ((Alerts.now w + d <= t < Alerts.now w + d + 300)%Z ->
      Alerts.main_alerts (Alerts.wait_until t shown)
      = Some (Alerts.faded_alert message type (Alerts.next_id w) :: alerts))
  /\ ((Alerts.now w + d + 300 <= t)%Z ->
      Alerts.main_alerts (Alerts.wait_until t shown) = Some alerts
      /\ Alerts.timers (Alerts.wait_until t shown) = []).
Proof. apply message_lifecycle. Qed.

Lemma status_message_comes_and_goes_witness :
  Alerts.main_alerts PageSamples.quiet_page = Some [PageSamples.flash]
  /\ Alerts.timers PageSamples.quiet_page = []
  /\ Alerts.main_alerts
       (Alerts.wait_until 4300
          (@Alerts.showStatusMessage Browser.en_US_host
             (VStr "Copied to clipboard!") (VStr "success") (Some 3000%Z)
             PageSamples.quiet_page))
     = Some [PageSamples.flash].
Proof.
  split; [reflexivity|]. split; [reflexivity|].
  refine (proj1 (proj2 (proj2
    (status_message_comes_and_goes Browser.en_US_host
       (VStr "Copied to clipboard!") (VStr "success") 3000
       PageSamples.quiet_page [PageSamples.flash] 4300
       eq_refl eq_refl _ _ _)) _)).
  - repeat constructor.
  - lia.
  - simpl; lia.
  - simpl; lia.
Defined.

(** X9: the timeout of a message dismisses the first alert of the
    container, not the alert the message made. When a second message with
    the same duration is shown less than 300 ms after the first, on a page
    that was quiet, both timeouts fade and remove the alert of the second
    one: the alert of the first message is never faded and never removed,
    and once the timeouts have run none is left to take it away. *)
Theorem newer_alert_dismissed_for_older
    (host : Host) (message1 type1 message2 type2 : value) (d : Z)
    (w : Alerts.Page) (alerts : list Alerts.AlertElement) (t2 t : Z) :
  Alerts.main_alerts w = Some alerts ->
  Alerts.timers w = [] ->
  Forall (fun a => Alerts.alert_id a < Alerts.next_id w) alerts ->
  (0 < d)%Z ->
  (Alerts.now w <= t2)%Z ->
  (t2 < Alerts.now w + d)%Z ->
  (t2 < Alerts.now w + 300)%Z ->
  (t2 + d + 300 <= t)%Z ->
  let first := Alerts.showStatusMessage message1 type1 (Some d) w in
  let second :=
    Alerts.showStatusMessage message2 type2 (Some d) (Alerts.wait_until t2 first) in
  Alerts.main_alerts second
  = Some (Alerts.new_alert message2 type2 (S (Alerts.next_id w))
          :: Alerts.new_alert message1 type1 (Alerts.next_id w) :: alerts)
  /\ Alerts.main_alerts (Alerts.wait_until t second)
     = Some (Alerts.new_alert message1 type1 (Alerts.next_id w) :: alerts)
  /\ Alerts.timers (Alerts.wait_until t second) = [].
Proof.
  intros Hmain Htimers Hids Hd Ht2 Hpending Hsoon Ht first second.
  subst second first.
  rewrite (showStatusMessage_run message1 type1 (Some d) w alerts Hmain).
  cbv zeta. rewrite (proj2 (Z.gtb_lt d 0) Hd), Htimers. cbn [List.app].
  match goal with
  | |- context [Alerts.wait_until t2 ?p] =>
      assert (Hwait : Alerts.wait_until t2 p = Alerts.set_now t2 p)
  end.
  { unfold Alerts.wait_until. cbn [Alerts.timers List.length Nat.mul Nat.add].
    early_timer. cbn [Alerts.now]. now rewrite (Z.max_r _ _ Ht2). }
  rewrite Hwait. clear Hwait.
  erewrite showStatusMessage_run by reflexivity.
  cbv zeta. rewrite (proj2 (Z.gtb_lt d 0) Hd).
  cbn [Alerts.set_now Alerts.main_alerts Alerts.timers Alerts.now
       Alerts.next_id List.app].
  split; [reflexivity|].
  unfold Alerts.wait_until. cbn [Alerts.timers List.length Nat.mul Nat.add].
  match goal with
  | |- context [Alerts.run 4 t ?p] =>
      assert (Hrun : Alerts.run 4 t p
                     = {| Alerts.main_alerts :=
                            Some (Alerts.new_alert message1 type1 (Alerts.next_id w)
                                  :: alerts);
                          Alerts.timers := [];
                          Alerts.now := (t2 + d + 300)%Z;
                          Alerts.next_id := S (S (Alerts.next_id w)) |})
  end.
  { fire_page.
    rewrite run_task_dismiss, (Z.max_r t2 (Alerts.now w + d)) by lia.
    cbn [List.app Alerts.alert_id Alerts.markup].
    fire_page.
    rewrite run_task_dismiss, (Z.max_r (Alerts.now w + d) (t2 + d)) by lia.
    cbn [List.app Alerts.alert_id Alerts.markup].
    fire_page.
    rewrite run_task_remove, (Z.max_r (t2 + d) (Alerts.now w + d + 300)) by lia.
    fire_page.
    rewrite run_task_remove, (Z.max_r (Alerts.now w + d + 300) (t2 + d + 300)) by lia.
    cbn [Alerts.run].
    change (Alerts.alert_id (Alerts.new_alert message2 type2 (S (Alerts.next_id w))))
      with (S (Alerts.next_id w)).
    assert (Hbelow : Forall (fun a => Alerts.alert_id a < S (Alerts.next_id w))
                       (Alerts.new_alert message1 type1 (Alerts.next_id w) :: alerts)).
    { constructor; [cbn [Alerts.alert_id Alerts.new_alert]; lia|].
      eapply Forall_impl; [|exact Hids]. cbn beta. intros; lia. }
    match goal with
    | |- context [filter ?f (?x :: ?l)] =>
        assert (Hinner : filter f (x :: l) = l)
    end.
    { cbn [filter Alerts.alert_id]. rewrite Nat.eqb_refl. cbn [negb].
      apply (filter_other_id _ _ Hbelow). }
    now rewrite Hinner, (filter_other_id _ _ Hbelow). }
  now rewrite Hrun.
Qed.

Lemma newer_alert_dismissed_for_older_witness :
  Alerts.main_alerts PageSamples.quiet_page = Some [PageSamples.flash]
  /\ Alerts.timers PageSamples.quiet_page = []
  /\ (1200 < Alerts.now PageSamples.quiet_page + 300)%Z
  /\ option_map (map Alerts.alert_id)
       (Alerts.main_alerts
          (Alerts.wait_until 60000
             (@Alerts.showStatusMessage Browser.en_US_host
                (VStr "Failed to copy to clipboard") (VStr "error") (Some 3000%Z)
                (Alerts.wait_until 1200
                   (@Alerts.showStatusMessage Browser.en_US_host
                      (VStr "Copied to clipboard!") (VStr "success")
                      (Some 3000%Z) PageSamples.quiet_page)))))
     = Some [1; 0].
Proof.
  split; [reflexivity|]. split; [reflexivity|]. split; [simpl; lia|].
  assert (Hids : Forall (fun a => Alerts.alert_id a
                                  < Alerts.next_id PageSamples.quiet_page)
                   [PageSamples.flash]) by repeat constructor.
  destruct (newer_alert_dismissed_for_older Browser.en_US_host
              (VStr "Copied to clipboard!") (VStr "success")
              (VStr "Failed to copy to clipboard") (VStr "error") 3000
              PageSamples.quiet_page [PageSamples.flash] 1200 60000
              eq_refl eq_refl Hids)
    as (_ & Hleft & _); try (simpl; lia).
  now rewrite Hleft.
Defined.

(** X10: a duration that is not positive sets no timeout: on a page that
    was quiet the alert is put first in the container and stays there as
    it was made, however long one waits. *)
Theorem message_without_duration_stays
    (host : Host) (message type : value) (d : Z) (w : Alerts.Page)
    (alerts : list Alerts.AlertElement) (t : Z) :
  Alerts.main_alerts w = Some alerts ->
  Alerts.timers w = [] ->
  (d <= 0)%Z ->
  Alerts.main_alerts
    (Alerts.wait_until t (Alerts.showStatusMessage message type (Some d) w))
  = Some (Alerts.new_alert message type (Alerts.next_id w) :: alerts)
  /\ Alerts.timers
       (Alerts.wait_until t (Alerts.showStatusMessage message type (Some d) w))
     = [].
Proof.
  intros Hmain Htimers Hd.
  rewrite (showStatusMessage_run message type (Some d) w alerts Hmain).
  cbv zeta.
  replace (d >? 0)%Z with false
    by (symmetry; destruct (d >? 0)%Z eqn:E; [apply Z.gtb_lt in E; lia | reflexivity]).
  rewrite Htimers. unfold Alerts.wait_until.
  rewrite run_idle by reflexivity. now split.
Qed.

Lemma message_without_duration_stays_witness :
  Alerts.main_alerts PageSamples.quiet_page = Some [PageSamples.flash]
  /\ Alerts.timers PageSamples.quiet_page = []
  /\ option_map (map Alerts.alert_id)
       (Alerts.main_alerts
          (Alerts.wait_until 86400000
             (@Alerts.showStatusMessage Browser.en_US_host
                (VStr "Comparison failed") (VStr "error") (Some 0%Z)
                PageSamples.quiet_page)))
     = Some [1; 0].
Proof.
  split; [reflexivity|]. split; [reflexivity|].
  destruct (message_without_duration_stays Browser.en_US_host
              (VStr "Comparison failed") (VStr "error") 0
              PageSamples.quiet_page [PageSamples.flash] 86400000
              eq_refl eq_refl ltac:(lia))
    as (Hstays & _).
  now rewrite Hstays.
Defined.

(** X11: the alert of a message carries the message and the type as they
    are given, nothing escaped: the text of the message stands in the
    markup, the class is [alert-] followed by the type, but [alert-danger]
    for the type [error], and the icon is the triangle for [error] and
    [warning], the check circle for [success], the info circle for
    anything else. *)
Theorem alert_markup_carries_message
    (host : Host) (message type : value) (duration : option Z)
    (w : Alerts.Page) (alerts : list Alerts.AlertElement) (s : string) :
  Alerts.main_alerts w = Some alerts ->
  Loading.default_to (VStr "info") type = VStr s ->
  exists shown : Alerts.AlertElement,
    Alerts.main_alerts (Alerts.showStatusMessage message type duration w)
    = Some (shown :: alerts)
    /\ contains (to_string message) (Alerts.markup shown)
    /\ contains
         ("class=" ++ dq ++ "alert "
          ++ (if String.eqb s "error" then "alert-danger" else "alert-" ++ s)
          ++ " alert-dismissible")
         (Alerts.markup shown)
    /\ contains
         ("fas "
          ++ (if String.eqb s "error" || String.eqb s "warning"
              then "fa-exclamation-triangle"
              else if String.eqb s "success" then "fa-check-circle"
              else "fa-info-circle")
          ++ " me-2")
         (Alerts.markup shown).
Proof.
  intros Hmain Htype.
  exists (Alerts.new_alert message type (Alerts.next_id w)).
  rewrite (showStatusMessage_run message type duration w alerts Hmain).
  cbv zeta. cbn [Alerts.main_alerts Alerts.markup Alerts.new_alert].
  split; [reflexivity|]. split; [apply message_in_alert_html|].
  rewrite Htype. unfold Alerts.alert_html, Alerts.alert_class, Alerts.alert_icon.
  cbn [Loading.is_string to_string].
  split.
  - eapply contains_trans; [|apply (contains_fragments 1 3)].
    cbn [firstn skipn].
    exists (sp 8 ++ "<div "),
      (" fade show slide-up" ++ dq ++ " " ++ attr "role" "alert" ++ ">" ++ nl).
    rewrite !template_cons. cbn [template String.concat].
    destruct (String.eqb s "error").
    + reflexivity.
    + rewrite ?append_assoc, ?append_empty_r. cbn.
      now rewrite ?append_assoc, ?append_empty_r.
  - eapply contains_trans; [|apply (contains_fragments 4 3)].
    cbn [firstn skipn].
    exists (sp 12 ++ "<i class=" ++ dq), (dq ++ "></i>" ++ nl).
    rewrite !template_cons. cbn [template String.concat].
    destruct (String.eqb_spec s "error") as [->|_]; [reflexivity|].
    destruct (String.eqb_spec s "success") as [->|_]; [reflexivity|].
    destruct (String.eqb s "warning"); reflexivity.
Qed.

Lemma alert_markup_carries_message_witness :
  Alerts.main_alerts PageSamples.quiet_page = Some [PageSamples.flash]
  /\ exists shown : Alerts.AlertElement,
       Alerts.main_alerts
         (@Alerts.showStatusMessage Browser.en_US_host
            (VStr "<img src=x onerror=alert(1)>") VUndefined None
            PageSamples.quiet_page)
       = Some [shown; PageSamples.flash]
       /\ contains "<img src=x onerror=alert(1)>" (Alerts.markup shown).
Proof.
  split; [reflexivity|].
  destruct (alert_markup_carries_message Browser.en_US_host
              (VStr "<img src=x onerror=alert(1)>") VUndefined None
              PageSamples.quiet_page [PageSamples.flash] "info"
              eq_refl eq_refl)
    as (shown & Hshown & Hmessage & _).
  exists shown. split; [exact Hshown | exact Hmessage].
Defined.

(** X12: [copyToClipboard] answers with a success alert carrying the
    message given, "Copied to clipboard!" by default, when the text was
    written, and with an error alert carrying its own text, whatever
    message was given, when it was not; on a page that was quiet either
    alert is gone after 3300 ms and the container is as it was. *)
Theorem copy_feedback_comes_and_goes
    (host : Host) (text successMessage : value) (written : bool)
    (w : Alerts.Page) (alerts : list Alerts.AlertElement) (t : Z) :
  Alerts.main_alerts w = Some alerts ->
  Alerts.timers w = [] ->
  Forall (fun a => Alerts.alert_id a < Alerts.next_id w) alerts ->
  (Alerts.now w + 3300 <= t)%Z ->
  Alerts.main_alerts (Alerts.copyToClipboard text successMessage written w)
  = Some
      ((if written
        then Alerts.new_alert
               (Loading.default_to (VStr "Copied to clipboard!") successMessage)
               (VStr "success") (Alerts.next_id w)
        else Alerts.new_alert (VStr "Failed to copy to clipboard")
               (VStr "error") (Alerts.next_id w))
       :: alerts)
  /\ Alerts.main_alerts
       (Alerts.wait_until t (Alerts.copyToClipboard text successMessage written w))
     = Some alerts
  /\ Alerts.timers
       (Alerts.wait_until t (Alerts.copyToClipboard text successMessage written w))
     = [].
Proof.
  intros Hmain Htimers Hids Ht. unfold Alerts.copyToClipboard.
  destruct written.
  - split.
    + now rewrite (showStatusMessage_run _ _ _ w alerts Hmain).
    + apply (message_lifecycle host _ _ 3000 w alerts t Hmain Htimers Hids);
        lia.
  - split.
    + now rewrite (showStatusMessage_run _ _ _ w alerts Hmain).
    + apply (message_lifecycle host _ _ 3000 w alerts t Hmain Htimers Hids);
        lia.
Qed.

Lemma copy_feedback_comes_and_goes_witness :
  Alerts.main_alerts PageSamples.quiet_page = Some [PageSamples.flash]
  /\ Alerts.timers PageSamples.quiet_page = []
  /\ Alerts.main_alerts
       (Alerts.wait_until 4300
          (@Alerts.copyToClipboard Browser.en_US_host
             (VStr "SELECT 1") VUndefined false PageSamples.quiet_page))
     = Some [PageSamples.flash].
Proof.
  split; [reflexivity|]. split; [reflexivity|].
  refine (proj1 (proj2
    (copy_feedback_comes_and_goes Browser.en_US_host
       (VStr "SELECT 1") VUndefined false
       PageSamples.quiet_page [PageSamples.flash] 4300
       eq_refl eq_refl _ _))).
  - repeat constructor.
  - simpl; lia.
Defined.

(** ** Configuration templates *)

Section PropertyFacts.
Import Templates.
Context {A : Type}.
Implicit Types (o : list (string * A)) (k : string) (v : A).

Lemma own_replace_same o k v x :
  own o k = Some x -> own (replace k v o) k = Some v.
Proof.
  induction o as [|[k' v'] o IH]; cbn [own replace]; [discriminate|].
  destruct (String.eqb k' k) eqn:E; cbn [own]; rewrite E; [reflexivity | exact IH].
Qed.

Lemma own_replace_other o k v k' :
  k <> k' -> own (replace k v o) k' = own o k'.
Proof.
  intros Hne. induction o as [|[k0 v0] o IH]; cbn [own replace]; [reflexivity|].
  destruct (String.eqb_spec k0 k) as [->|_]; cbn [own].
  - now rewrite (proj2 (String.eqb_neq _ _) Hne).
  - now rewrite IH.
Qed.

Lemma keys_replace o k v : map fst (replace k v o) = map fst o.
Proof.
  induction o as [|[k' v'] o IH]; cbn [replace map]; [reflexivity|].
  destruct (String.eqb k' k); cbn [map fst]; [reflexivity | now rewrite IH].
Qed.

Lemma own_insert_same o k v :
  own o k = None -> own (insert k v o) k = Some v.
Proof.
  induction o as [|[k' v'] o IH]; cbn [own insert].
  - now rewrite String.eqb_refl.
  - destruct (String.eqb k' k) eqn:E; [discriminate|]. intros Hnone.
    destruct (array_index k) as [i|], (array_index k') as [j|];
      try destruct (i <? j)%N; cbn [own];
      rewrite ?String.eqb_refl, ?E; auto.
Qed.

Lemma own_insert_other o k v k' :
  k <> k' -> own (insert k v o) k' = own o k'.
Proof.
  intros Hne. apply String.eqb_neq in Hne.
  induction o as [|[k0 v0] o IH]; cbn [own insert].
  - now rewrite Hne.
  - destruct (array_index k) as [i|], (array_index k0) as [j|];
      try destruct (i <? j)%N; cbn [own]; rewrite ?Hne, ?IH; reflexivity.
Qed.

Lemma own_define_same o k v : own (define k v o) k = Some v.
Proof.
  unfold define. destruct (own o k) eqn:E.
  - eapply own_replace_same, E.
  - apply own_insert_same, E.
Qed.

Lemma own_define_other o k v k' :
  k <> k' -> own (define k v o) k' = own o k'.
Proof.
  intros Hne. unfold define.
  destruct (own o k); [now apply own_replace_other | now apply own_insert_other].
Qed.

Lemma own_assign_same o k v :
  k <> "__proto__" -> own (assign k v o) k = Some v.
Proof.
  intros Hne. unfold assign. destruct (own o k) eqn:E.
  - eapply own_replace_same, E.
  - rewrite (proj2 (String.eqb_neq _ _) Hne). apply own_insert_same, E.
Qed.

Lemma own_assign_other o k v k' :
  k <> k' -> own (assign k v o) k' = own o k'.
Proof.
  intros Hne. unfold assign. destruct (own o k).
  - now apply own_replace_other.
  - destruct (String.eqb k "__proto__"); [reflexivity | now apply own_insert_other].
Qed.

End PropertyFacts.

(** The value [Object.fromEntries] keeps for a name is the last one the
    entries give it. *)
Lemma own_fold_define (entries : list (string * string))
    (o : Templates.template_data) (k : string) :
  Templates.own
    (fold_left (fun o e => Templates.define (fst e) (snd e) o) entries o) k
  = match Templates.last_value entries k with
    | Some v => Some v
    | None => Templates.own o k
    end.
Proof.
  revert o. induction entries as [|[k' v] entries IH]; intros o; [reflexivity|].
  cbn [fold_left Templates.last_value fst snd]. rewrite IH.
  destruct (Templates.last_value entries k); [reflexivity|].
  destruct (String.eqb_spec k' k) as [->|Hne].
  - apply own_define_same.
  - now apply own_define_other.
Qed.

Lemma own_fromEntries (entries : list (string * string)) (k : string) :
  Templates.own (Templates.fromEntries entries) k
  = Templates.last_value entries k.
Proof.
  unfold Templates.fromEntries. rewrite own_fold_define.
  now destruct (Templates.last_value entries k).
Qed.

Lemma own_in_keys {A : Type} (o : list (string * A)) (k : string) :
  In k (map fst o) <-> Templates.own o k <> None.
Proof.
  induction o as [|[k' v] o IH]; cbn [map fst In Templates.own].
  - split; [intros [] | intros H; now elim H].
  - destruct (String.eqb_spec k' k) as [->|Hne].
    + split; [discriminate | now left].
    + rewrite <- IH. split; [intros [E|H]; [now elim Hne | exact H] | now right].
Qed.

Lemma last_value_in_names (entries : list (string * string)) (k : string) :
  In k (map fst entries) <-> Templates.last_value entries k <> None.
Proof.
  induction entries as [|[k' v] entries IH];
    cbn [map fst In Templates.last_value].
  - split; [intros [] | intros H; now elim H].
  - destruct (Templates.last_value entries k) as [w|].
    + split; [discriminate | intros _; right; apply IH; discriminate].
    + destruct (String.eqb_spec k' k) as [->|Hne].
      * split; [discriminate | now left].
      * split; [intros [E|H]; [now elim Hne | now apply IH in H] | intros H; now elim H].
Qed.

Lemma truthy_nonempty (s : string) : s <> EmptyString -> truthy (VStr s) = true.
Proof.
  intros Hne. cbn [truthy]. now rewrite (proj2 (String.eqb_neq _ _) Hne).
Qed.

Lemma object_prototype_get_truthy (k : string) :
  object_prototype_get k <> VUndefined ->
  truthy (object_prototype_get k) = true /\ k <> EmptyString.
Proof.
  intros Hdef. split.
  - unfold object_prototype_get in *.
    destruct (String.eqb k "constructor"); [reflexivity|].
    destruct (String.eqb k "__proto__"); [reflexivity|].
    destruct (existsb (String.eqb k) object_prototype_methods);
      [reflexivity | now elim Hdef].
  - intros ->. now apply Hdef.
Qed.

Section TemplateFacts.
Import Templates.
Context {host : Host} {json : Json} {dom : Dom}.

(** What [saveAsTemplate] does once a name is given and the stored text
    can be read. *)
Lemma saveAsTemplate_run
    (app : App) (name : string) (form : list (string * string))
    (templates : template_store) :
  name <> EmptyString ->
  parse_templates app = Done templates ->
  saveAsTemplate (Some name) (Some form) app
  = Done
      {| page :=
           Alerts.showStatusMessage
             (VStr (template ["Template "; dq; name; dq; " saved successfully! 🎉"]))
             (VStr "success") None (page app);
         comparisonTemplates :=
           Some (JSON_stringify (assign name (fromEntries form) templates));
         doc := doc app;
         prompts :=
           (prompts app ++ ["💾 Enter a name for this configuration template:"])%list |}.
Proof.
  intros Hname Hparse. unfold saveAsTemplate.
  rewrite (truthy_nonempty name Hname). cbn [and_then].
  replace (parse_templates
             (prompt "💾 Enter a name for this configuration template:" app))
    with (parse_templates app) by reflexivity.
  rewrite Hparse. reflexivity.
Qed.

Lemma parse_templates_stored (app : App) (text : string) (templates : template_store) :
  comparisonTemplates app = Some text ->
  text <> EmptyString ->
  JSON_parse text = Some templates ->
  parse_templates app = Done templates.
Proof.
  intros Hstored Hne Hparse. unfold parse_templates.
  now rewrite Hstored, (truthy_nonempty text Hne), Hparse.
Qed.

End TemplateFacts.

(** X13: what [saveAsTemplate] stores under a name is what a later reading
    of the storage finds under that name, when [JSON.parse] gives back what
    [JSON.stringify] was given: for a name that is not empty and not
    [__proto__], the template found has the names of the form for keys and,
    for each name, the last value the form gave it, and what is found under
    every other name is what was found before. *)
Theorem saved_template_is_found
    (host : Host) (json : Templates.Json) (dom : Templates.Dom)
    (app : Templates.App) (name : string) (form : list (string * string))
    (templates : Templates.template_store) :
  name <> EmptyString ->
  name <> "__proto__" ->
  Templates.parse_templates app = Templates.Done templates ->
  let saved := Templates.assign name (Templates.fromEntries form) templates in
  Templates.JSON_stringify saved <> EmptyString ->
  Templates.JSON_parse (Templates.JSON_stringify saved) = Some saved ->
  exists app' : Templates.App,
    Templates.saveAsTemplate (Some name) (Some form) app = Templates.Done app'
    /\ Templates.parse_templates app' = Templates.Done saved
    /\ Templates.lookup saved name
       = Templates.Template (Templates.fromEntries form)
    /\ (forall key, In key (Templates.found_keys (Templates.lookup saved name))
                    <-> In key (map fst form))
    /\ (forall key v, Templates.last_value form key = Some v ->
                      Templates.found_get (Templates.lookup saved name) key = VStr v)
    /\ (forall other, other <> name ->
                      Templates.lookup saved other = Templates.lookup templates other).
Proof.
  intros Hname Hproto Hparse saved Htext Hround.
  eexists. split; [apply (saveAsTemplate_run app name form templates Hname Hparse)|].
  assert (Hfound : Templates.lookup saved name
                   = Templates.Template (Templates.fromEntries form)).
  { unfold Templates.lookup, saved. now rewrite (own_assign_same _ _ _ Hproto). }
  split; [eapply parse_templates_stored; [reflexivity | exact Htext | exact Hround]|].
  split; [exact Hfound|]. rewrite Hfound. cbn [Templates.found_keys Templates.found_get].
  split; [|split].
  - intros key. rewrite own_in_keys, own_fromEntries. symmetry.
    apply last_value_in_names.
  - intros key v Hlast. now rewrite own_fromEntries, Hlast.
  - intros other Hother. unfold Templates.lookup, saved.
    rewrite own_assign_other; [reflexivity | congruence].
Qed.

Lemma saved_template_is_found_witness :
  exists app' : Templates.App,
    @Templates.saveAsTemplate Browser.en_US_host TemplateSamples.small_json
      TemplateSamples.text_fields (Some "nightly")
      (Some TemplateSamples.comparison_form) TemplateSamples.fresh_app
    = Templates.Done app'
    /\ Templates.found_get
         (Templates.lookup
            (Templates.assign "nightly"
               (Templates.fromEntries TemplateSamples.comparison_form) [])
            "nightly")
         "primary_key"
       = VStr "order_id,line".
Proof.
  destruct (saved_template_is_found Browser.en_US_host TemplateSamples.small_json
              TemplateSamples.text_fields TemplateSamples.fresh_app "nightly"
              TemplateSamples.comparison_form [])
    as (app' & Hsave & _ & _ & _ & Hget & _).
  - discriminate.
  - discriminate.
  - reflexivity.
  - discriminate.
  - reflexivity.
  - exists app'. split; [exact Hsave|]. now apply Hget.
Defined.

(** X14: saving under a name that is taken replaces that template where it
    stands: the text stored lists the same names in the same order, with
    the new template under the name. *)
Theorem saving_again_replaces_in_place
    (host : Host) (json : Templates.Json) (dom : Templates.Dom)
    (app : Templates.App) (name : string) (form : list (string * string))
    (templates : Templates.template_store) (old : Templates.template_data) :
  name <> EmptyString ->
  Templates.parse_templates app = Templates.Done templates ->
  Templates.own templates name = Some old ->
  exists (app' : Templates.App) (saved : Templates.template_store),
    Templates.saveAsTemplate (Some name) (Some form) app = Templates.Done app'
    /\ Templates.comparisonTemplates app' = Some (Templates.JSON_stringify saved)
    /\ map fst saved = map fst templates
    /\ Templates.own saved name = Some (Templates.fromEntries form)
    /\ (forall other, other <> name ->
                      Templates.own saved other = Templates.own templates other).
Proof.
  intros Hname Hparse Hold.
  eexists. exists (Templates.replace name (Templates.fromEntries form) templates).
  split; [apply (saveAsTemplate_run app name form templates Hname Hparse)|].
  cbn [Templates.comparisonTemplates]. unfold Templates.assign. rewrite Hold.
  split; [reflexivity|]. split; [apply keys_replace|].
  split; [eapply own_replace_same, Hold|].
  intros other Hother. apply own_replace_other. congruence.
Qed.

Lemma saving_again_replaces_in_place_witness :
  exists (app' : Templates.App) (saved : Templates.template_store),
    @Templates.saveAsTemplate Browser.en_US_host TemplateSamples.small_json
      TemplateSamples.text_fields (Some "nightly") (Some [("dev_table", "x")])
      (@Templates.set_comparisonTemplates TemplateSamples.text_fields
         (Some (TemplateSamples.stringify
                  [("nightly", [("dev_table", "a")]); ("weekly", [])]))
         TemplateSamples.fresh_app)
    = Templates.Done app'
    /\ Templates.comparisonTemplates app'
       = Some (TemplateSamples.stringify saved)
    /\ map fst saved = ["nightly"; "weekly"]
    /\ Templates.own saved "nightly" = Some [("dev_table", "x")].
Proof.
  destruct (saving_again_replaces_in_place Browser.en_US_host
              TemplateSamples.small_json TemplateSamples.text_fields
              (@Templates.set_comparisonTemplates TemplateSamples.text_fields
                 (Some (TemplateSamples.stringify
                          [("nightly", [("dev_table", "a")]); ("weekly", [])]))
                 TemplateSamples.fresh_app)
              "nightly" [("dev_table", "x")]
              [("nightly", [("dev_table", "a")]); ("weekly", [])]
              [("dev_table", "a")])
    as (app' & saved & Hsave & Hstored & Hnames & Hown & _).
  - discriminate.
  - reflexivity.
  - reflexivity.
  - exists app', saved. split; [exact Hsave|]. split; [exact Hstored|].
    split; [exact Hnames | exact Hown].
Defined.

(** X15: a template named [__proto__] is reported saved and is not: when
    no template of that name is in the storage, the assignment changes the
    prototype of the templates and none of their properties, so the text
    stored is that of the templates as they were, and the success message
    is shown all the same. *)
Theorem proto_template_is_not_stored
    (host : Host) (json : Templates.Json) (dom : Templates.Dom)
    (app : Templates.App) (form : list (string * string))
    (templates : Templates.template_store) (alerts : list Alerts.AlertElement) :
  Templates.parse_templates app = Templates.Done templates ->
  Templates.own templates "__proto__" = None ->
  Alerts.main_alerts (Templates.page app) = Some alerts ->
  exists app' : Templates.App,
    Templates.saveAsTemplate (Some "__proto__") (Some form) app
    = Templates.Done app'
    /\ Templates.comparisonTemplates app'
       = Some (Templates.JSON_stringify templates)
    /\ Alerts.main_alerts (Templates.page app')
       = Some (Alerts.new_alert
                 (VStr (template ["Template "; dq; "__proto__"; dq;
                                  " saved successfully! 🎉"]))
                 (VStr "success") (Alerts.next_id (Templates.page app))
               :: alerts).
Proof.
  intros Hparse Hown Hmain. eexists.
  split; [apply (saveAsTemplate_run app "__proto__" form templates);
          [discriminate | exact Hparse]|].
  cbn [Templates.comparisonTemplates Templates.page].
  unfold Templates.assign. rewrite Hown. cbn [String.eqb Ascii.eqb Bool.eqb].
  split; [reflexivity|].
  now rewrite (showStatusMessage_run _ _ _ _ alerts Hmain).
Qed.

Lemma proto_template_is_not_stored_witness :
  exists app' : Templates.App,
    @Templates.saveAsTemplate Browser.en_US_host TemplateSamples.small_json
      TemplateSamples.text_fields (Some "__proto__")
      (Some TemplateSamples.comparison_form) TemplateSamples.fresh_app
    = Templates.Done app'
    /\ Templates.comparisonTemplates app' = Some "{}".
Proof.
  destruct (proto_template_is_not_stored Browser.en_US_host
              TemplateSamples.small_json TemplateSamples.text_fields
              TemplateSamples.fresh_app TemplateSamples.comparison_form
              [] [PageSamples.flash] eq_refl eq_refl eq_refl)
    as (app' & Hsave & Hstored & _).
  exists app'. split; [exact Hsave | exact Hstored].
Defined.

(** X16: a name that no template has but [Object.prototype] knows, such as
    [toString] or [constructor], is taken for a template: when some
    template is stored, [loadTemplate] finds the inherited member, which
    has no keys, touches no field of the document and nothing of the
    storage, and reports that the template was loaded. *)
Theorem inherited_name_loads_nothing
    (host : Host) (json : Templates.Json) (dom : Templates.Dom)
    (app : Templates.App) (name : string)
    (templates : Templates.template_store) (alerts : list Alerts.AlertElement) :
  Templates.parse_templates app = Templates.Done templates ->
  templates <> [] ->
  Templates.own templates name = None ->
  object_prototype_get name <> VUndefined ->
  Alerts.main_alerts (Templates.page app) = Some alerts ->
  exists app' : Templates.App,
    Templates.loadTemplate (Some name) app = Templates.Done app'
    /\ Templates.doc app' = Templates.doc app
    /\ Templates.comparisonTemplates app' = Templates.comparisonTemplates app
    /\ Alerts.main_alerts (Templates.page app')
       = Some (Alerts.new_alert
                 (VStr (template ["Template "; dq; name; dq;
                                  " loaded successfully! ✨"]))
                 (VStr "success") (Alerts.next_id (Templates.page app))
               :: alerts).
Proof.
  intros Hparse Hsome Hown Hproto Hmain.
  destruct (object_prototype_get_truthy name Hproto) as (Htruthy & Hname).
  unfold Templates.loadTemplate. rewrite Hparse. cbn [Templates.and_then].
  destruct templates as [|[first data] templates]; [now elim Hsome|].
  cbn [map]. unfold Templates.lookup. rewrite Hown.
  cbn [Templates.found_truthy Templates.found_keys Templates.forEach
       Templates.and_then].
  rewrite (truthy_nonempty name Hname), Htruthy. cbn [andb].
  eexists. split; [reflexivity|].
  cbn [Templates.doc Templates.comparisonTemplates Templates.page
       Templates.set_page Templates.set_doc Templates.prompt].
  split; [reflexivity|]. split; [reflexivity|].
  now rewrite (showStatusMessage_run _ _ _ _ alerts Hmain).
Qed.

Lemma inherited_name_loads_nothing_witness :
  exists app' : Templates.App,
    @Templates.loadTemplate Browser.en_US_host TemplateSamples.small_json
      TemplateSamples.text_fields (Some "toString")
      (@Templates.set_comparisonTemplates TemplateSamples.text_fields
         (Some (TemplateSamples.stringify [("nightly", [("dev_table", "a")])]))
         TemplateSamples.fresh_app)
    = Templates.Done app'
    /\ Templates.doc app' = TemplateSamples.empty_form.
Proof.
  destruct (inherited_name_loads_nothing Browser.en_US_host
              TemplateSamples.small_json TemplateSamples.text_fields
              (@Templates.set_comparisonTemplates TemplateSamples.text_fields
                 (Some (TemplateSamples.stringify
                          [("nightly", [("dev_table", "a")])]))
                 TemplateSamples.fresh_app)
              "toString" [("nightly", [("dev_table", "a")])]
              [PageSamples.flash])
    as (app' & Hload & Hdoc & _).
  - reflexivity.
  - discriminate.
  - reflexivity.
  - discriminate.
  - reflexivity.
  - exists app'. split; [exact Hload | exact Hdoc].
Defined.

(** X17: with no template stored [loadTemplate] asks nothing: whatever the
    user would have answered, no dialog is shown, the document and the
    storage are left alone, and the page gets the warning that no template
    was found, to be dismissed after the default 5000 ms. *)
Theorem load_without_templates_warns
    (host : Host) (json : Templates.Json) (dom : Templates.Dom)
    (app : Templates.App) (answer : option string)
    (alerts : list Alerts.AlertElement) :
  Templates.parse_templates app = Templates.Done [] ->
  Alerts.main_alerts (Templates.page app) = Some alerts ->
  exists app' : Templates.App,
    Templates.loadTemplate answer app = Templates.Done app'
    /\ Templates.prompts app' = Templates.prompts app
    /\ Templates.doc app' = Templates.doc app
    /\ Templates.comparisonTemplates app' = Templates.comparisonTemplates app
    /\ Alerts.main_alerts (Templates.page app')
       = Some (Alerts.new_alert
                 (VStr "No saved templates found. Create one first! 📝")
                 (VStr "warning") (Alerts.next_id (Templates.page app))
               :: alerts)
    /\ Alerts.timers (Templates.page app')
       = (Alerts.timers (Templates.page app)
          ++ [((Alerts.now (Templates.page app) + 5000)%Z, Alerts.Dismiss)])%list.
Proof.
  intros Hparse Hmain. unfold Templates.loadTemplate. rewrite Hparse.
  cbn [Templates.and_then map]. eexists. split; [reflexivity|].
  cbn [Templates.prompts Templates.doc Templates.comparisonTemplates
       Templates.page Templates.set_page].
  rewrite (showStatusMessage_run _ _ _ _ alerts Hmain).
  repeat split; reflexivity.
Qed.

Lemma load_without_templates_warns_witness :
  exists app' : Templates.App,
    @Templates.loadTemplate Browser.en_US_host TemplateSamples.small_json
      TemplateSamples.text_fields (Some "nightly") TemplateSamples.fresh_app
    = Templates.Done app'
    /\ Templates.prompts app' = [].
Proof.
  destruct (load_without_templates_warns Browser.en_US_host
              TemplateSamples.small_json TemplateSamples.text_fields
              TemplateSamples.fresh_app (Some "nightly") [PageSamples.flash]
              eq_refl eq_refl)
    as (app' & Hload & Hprompts & _).
  exists app'. split; [exact Hload | exact Hprompts].
Defined.

(** ** Page animations *)

Section PickFacts.
Context {T : Type}.

Lemma pick_members (ts : list (Z * T)) (m : Z * T) (others : list (Z * T)) :
  Alerts.pick ts = Some (m, others) ->
  In m ts
  /\ (forall x, In x ts -> x = m \/ In x others)
  /\ (forall x, In x others -> In x ts)
  /\ List.length ts = S (List.length others)
  /\ Forall (fun t => (fst m <= fst t)%Z) ts.
Proof.
  revert m others. induction ts as [|t rest IH]; intros m others; [discriminate|].
  cbn [Alerts.pick]. destruct (Alerts.pick rest) as [[m' others']|] eqn:Hrest.
  - destruct (IH _ _ eq_refl) as (Hin & Hsplit & Hback & Hlen & Hmin).
    destruct (Z.leb_spec (fst t) (fst m')) as [Hle|Hgt]; intros [= <- <-].
    + split; [now left|]. split; [intros x [->|Hx]; [now left | now right]|].
      split; [intros x Hx; now right|]. split; [reflexivity|].
      constructor; [lia|]. eapply Forall_impl; [|exact Hmin]. cbn beta. intros; lia.
    + split; [now right|].
      split; [intros x [->|Hx]; [right; now left|];
              destruct (Hsplit x Hx) as [->|Hx']; [now left | right; now right]|].
      split; [intros x [->|Hx]; [now left | right; now apply Hback]|].
      split; [cbn [List.length]; lia|].
      constructor; [lia | exact Hmin].
  - destruct rest as [|u rest]; [|cbn [Alerts.pick] in Hrest;
      destruct (Alerts.pick rest) as [[? ?]|];
      [destruct (fst u <=? fst p)%Z|]; discriminate].
    intros [= <- <-].
    split; [now left|]. split; [intros x [->|[]]; now left|].
    split; [intros x []|]. split; [reflexivity|].
    constructor; [lia | constructor].
Qed.

Lemma pick_nothing (ts : list (Z * T)) : Alerts.pick ts = None -> ts = [].
Proof.
  destruct ts as [|t rest]; [reflexivity|]. cbn [Alerts.pick].
  destruct (Alerts.pick rest) as [[m others]|]; [|discriminate].
  destruct (fst t <=? fst m)%Z; discriminate.
Qed.

End PickFacts.

Section AnimationFacts.
Import Animations.

Lemma nth_error_set_nth_same {A : Type} (l : list A) (i : nat) (v x : A) :
  nth_error l i = Some x -> nth_error (set_nth i v l) i = Some v.
Proof.
  revert i. induction l as [|y l IH]; intros [|i]; cbn; try discriminate; auto.
Qed.

Lemma nth_error_set_nth_other {A : Type} (l : list A) (i j : nat) (v : A) :
  i <> j -> nth_error (set_nth i v l) j = nth_error l j.
Proof.
  revert i j. induction l as [|y l IH]; intros [|i] [|j] Hne; cbn;
    try reflexivity; [now elim Hne | apply IH; lia].
Qed.

Lemma length_set_nth {A : Type} (l : list A) (i : nat) (v : A) :
  List.length (set_nth i v l) = List.length l.
Proof.
  revert i. induction l as [|y l IH]; intros [|i]; cbn; auto.
Qed.

(** What the loop over the cards makes. *)
Lemma stagger_run (index : nat) (cs : list Style) (base : Z) :
  stagger index cs base
  = (map hidden_card cs,
     map (fun i => ((base + Z.of_nat i * 150)%Z, RevealCard i))
       (seq index (List.length cs))).
Proof.
  revert index. induction cs as [|c cs IH]; intros index; [reflexivity|].
  cbn [stagger List.length seq map]. now rewrite IH.
Qed.

Lemma initPageAnimations_staged (p : Page) (limit : Z) :
  timers p = [] -> staged p limit (initPageAnimations p).
Proof.
  intros Hquiet. unfold initPageAnimations. rewrite stagger_run, Hquiet.
  cbn [List.app].
  assert (Hcards : forall i c, nth_error (cards p) i = Some c ->
            nth_error (map hidden_card (cards p)) i = Some (hidden_card c)
            /\ In ((now p + Z.of_nat i * 150)%Z, RevealCard i)
                 (map (fun i => ((now p + Z.of_nat i * 150)%Z, RevealCard i))
                    (seq 0 (List.length (cards p))))).
  { intros i c Hnth. split; [now rewrite nth_error_map, Hnth|].
    apply in_map_iff. exists i. split; [reflexivity|].
    apply in_seq. split; [lia|].
    apply nth_error_Some. congruence. }
  assert (Hdue : Forall
            (fun t => match snd t with
                      | RevealCard i => fst t = (now p + Z.of_nat i * 150)%Z
                      | RevealHero => fst t = (now p + 200)%Z
                      end)
            (map (fun i => ((now p + Z.of_nat i * 150)%Z, RevealCard i))
               (seq 0 (List.length (cards p))))).
  { apply Forall_forall. intros t Ht. apply in_map_iff in Ht.
    destruct Ht as (i & <- & _). reflexivity. }
  destruct (hero p) as [h|] eqn:Hhero; unfold staged;
    cbn [cards hero timers now]; rewrite ?length_map.
  - split; [apply Forall_app; split; [exact Hdue | now repeat constructor]|].
    split; [reflexivity|].
    split.
    + intros i c Hnth. left. destruct (Hcards i c Hnth) as (Hc & Hin).
      split; [exact Hc | apply in_or_app; now left].
    + intros h' Hh. rewrite Hhero in Hh. injection Hh as <-.
      left. split; [reflexivity|].
      apply in_or_app. right. now left.
  - split; [exact Hdue|]. split; [reflexivity|].
    split; [intros i c Hnth; left; now apply Hcards | congruence].
Qed.

(** A timeout coming due by the limit keeps the page [staged]. *)
Lemma run_task_staged (original p : Page) (limit due : Z) (task : Task)
    (others : list (Z * Task)) :
  staged original limit p ->
  Alerts.pick (timers p) = Some ((due, task), others) ->
  (due <= limit)%Z ->
  staged original limit
    (run_task task
       {| cards := cards p; hero := hero p; timers := others;
          now := Z.max (now p) due |}).
Proof.
  intros (Hdue & Hlen & Hcards & Hhero) Hpick Hle.
  destruct (pick_members _ _ _ Hpick) as (Hin & Hsplit & Hback & _ & _).
  assert (Hdue' : Forall
            (fun t => match snd t with
                      | RevealCard i => fst t = (now original + Z.of_nat i * 150)%Z
                      | RevealHero => fst t = (now original + 200)%Z
                      end) others).
  { apply Forall_forall. intros x Hx.
    exact (proj1 (Forall_forall _ _) Hdue x (Hback x Hx)). }
  pose proof (proj1 (Forall_forall _ _) Hdue _ Hin) as Hmine. cbn [fst snd] in Hmine.
  destruct task as [j|]; unfold staged; cbn [run_task cards hero timers now].
  - split; [exact Hdue'|]. split; [now rewrite length_set_nth|].
    split; [|intros h Hh; destruct (Hhero h Hh) as [(Hhid & Hpending)|Hshown];
             [left; split; [exact Hhid|];
              destruct (Hsplit _ Hpending) as [[=]|Hstill]; exact Hstill
             | now right]].
    intros i c Hnth. destruct (Nat.eq_dec j i) as [->|Hne].
    + right. split; [|lia].
      destruct (Hcards i c Hnth) as [(Hhid & _)|(Hshown & _)];
        eapply nth_error_set_nth_same; eassumption.
    + rewrite (nth_error_set_nth_other _ _ _ _ Hne).
      destruct (Hcards i c Hnth) as [(Hhid & Hpending)|Hshown]; [left | now right].
      split; [exact Hhid|].
      destruct (Hsplit _ Hpending) as [[= _ E]|Hstill]; [|exact Hstill].
      now elim Hne.
  - split; [exact Hdue'|]. split; [exact Hlen|].
    split.
    + intros i c Hnth.
      destruct (Hcards i c Hnth) as [(Hhid & Hpending)|Hshown]; [left | now right].
      split; [exact Hhid|].
      destruct (Hsplit _ Hpending) as [[=]|Hstill]; exact Hstill.
    + intros h Hh. right.
      destruct (Hhero h Hh) as [(-> & _)|(-> & _)]; split; (reflexivity || lia).
Qed.

Lemma run_staged (original : Page) (fuel : nat) (limit : Z) (p : Page) :
  staged original limit p -> staged original limit (run fuel limit p).
Proof.
  revert p. induction fuel as [|fuel IH]; intros p Hp; [exact Hp|].
  cbn [run]. destruct (Alerts.pick (timers p)) as [[[due task] others]|] eqn:Hpick;
    [|exact Hp].
  destruct (Z.leb_spec due limit) as [Hle|_]; [|exact Hp].
  apply IH. eapply run_task_staged; eassumption.
Qed.

(** With a run for every pending timeout, none due by the limit is left. *)
Lemma run_leaves_later (fuel : nat) (limit : Z) (p : Page) :
  List.length (timers p) <= fuel ->
  Forall (fun t => (limit < fst t)%Z) (timers (run fuel limit p)).
Proof.
  revert p. induction fuel as [|fuel IH]; intros p Hfuel.
  - cbn [run]. destruct (timers p); [constructor | cbn in Hfuel; lia].
  - cbn [run]. destruct (Alerts.pick (timers p)) as [[[due task] others]|] eqn:Hpick.
    + destruct (pick_members _ _ _ Hpick) as (_ & _ & _ & Hlen & Hmin).
      destruct (Z.leb_spec due limit) as [Hle|Hgt].
      * apply IH. destruct task; cbn [run_task timers]; lia.
      * eapply Forall_impl; [|exact Hmin]. cbn. intros; lia.
    + apply pick_nothing in Hpick. rewrite Hpick. constructor.
Qed.

(** The cards and the hero at any time after the call. *)
Lemma animation_stages (p : Page) (t : Z) :
  timers p = [] ->
  let later := wait_until t (initPageAnimations p) in
  (forall i c, nth_error (cards p) i = Some c ->
     ((t < now p + Z.of_nat i * 150)%Z ->
      nth_error (cards later) i = Some (hidden_card c))
     /\ ((now p + Z.of_nat i * 150 <= t)%Z ->
         nth_error (cards later) i = Some shown_card))
  /\ (forall h, hero p = Some h ->
        ((t < now p + 200)%Z -> hero later = Some (hidden_hero h))
        /\ ((now p + 200 <= t)%Z -> hero later = Some shown_hero)).
Proof.
  intros Hquiet later. subst later. unfold wait_until. cbn [cards hero].
  pose proof (run_staged p (List.length (timers (initPageAnimations p))) t _
                (initPageAnimations_staged p t Hquiet))
    as (_ & _ & Hcards & Hhero).
  pose proof (run_leaves_later (List.length (timers (initPageAnimations p))) t
                (initPageAnimations p) (Nat.le_refl _)) as Hlater.
  rewrite Forall_forall in Hlater.
  split.
  - intros i c Hnth.
    destruct (Hcards i c Hnth) as [(Hhid & Hpending)|(Hshown & Hdue)].
    + apply Hlater in Hpending. cbn [fst] in Hpending.
      split; [intros _; exact Hhid | lia].
    + split; [lia | intros _; exact Hshown].
  - intros h Hh.
    destruct (Hhero h Hh) as [(Hhid & Hpending)|(Hshown & Hdue)].
    + apply Hlater in Hpending. cbn [fst] in Hpending.
      split; [intros _; exact Hhid | lia].
    + split; [lia | intros _; exact Hshown].
Qed.

End AnimationFacts.

(** X18: after [initPageAnimations], on a page without pending timeout,
    the cards come into view one after the other: the card at index [i] is
    hidden (opacity 0, moved down 30px, its transition untouched) until
    150 i ms have passed and shown from then on, whatever the number of
    cards; the hero is hidden until 200 ms have passed and shown from then
    on. *)
Theorem cards_appear_in_turn (p : Animations.Page) (t : Z) :
  Animations.timers p = [] ->
  let later := Animations.wait_until t (Animations.initPageAnimations p) in
  (forall i c, nth_error (Animations.cards p) i = Some c ->
     ((t < Animations.now p + Z.of_nat i * 150)%Z ->
      nth_error (Animations.cards later) i
      = Some {| Animations.opacity := "0";
                Animations.transform := "translateY(30px)";
                Animations.transition := Animations.transition c |})
     /\ ((Animations.now p + Z.of_nat i * 150 <= t)%Z ->
         nth_error (Animations.cards later) i
         = Some {| Animations.opacity := "1";
                   Animations.transform := "translateY(0)";
                   Animations.transition :=
                     "all 0.6s cubic-bezier(0.4, 0, 0.2, 1)" |}))
  /\ (forall h, Animations.hero p = Some h ->
        ((t < Animations.now p + 200)%Z ->
         Animations.hero later
         = Some {| Animations.opacity := "0";
                   Animations.transform := "translateY(20px)";
                   Animations.transition := Animations.transition h |})
        /\ ((Animations.now p + 200 <= t)%Z ->
            Animations.hero later
            = Some {| Animations.opacity := "1";
                      Animations.transform := "translateY(0)";
                      Animations.transition :=
                        "all 0.8s cubic-bezier(0.4, 0, 0.2, 1)" |})).
Proof. intros Hquiet. exact (animation_stages p t Hquiet). Qed.

Lemma cards_appear_in_turn_witness :
  Animations.timers Animations.loading_page = []
  /\ map Animations.opacity
       (Animations.cards
          (Animations.wait_until 299
             (Animations.initPageAnimations Animations.loading_page)))
     = ["1"; "1"; "0"]
  /\ nth_error
       (Animations.cards
          (Animations.wait_until 299
             (Animations.initPageAnimations Animations.loading_page))) 2
     = Some (Animations.hidden_card Animations.plain).
Proof.
  split; [reflexivity|]. split; [reflexivity|].
  refine (proj1 (proj1 (cards_appear_in_turn Animations.loading_page 299 eq_refl)
                   2%nat Animations.plain eq_refl) _).
  simpl; lia.
Defined.
